(** * videopy: the topic-to-video pipeline of [app.py]

    A shallow embedding of class [GenerateVideo] (src/app.py) and the
    properties of its specification.

    Conventions of the embedding.
    - A Python [str] is a Rocq [string]; a character is a code point below
      256.  A Python [bytes] value is a [list Byte.byte].
    - A Python [int] is a [Z]; a Python [float] is a binary64 [float], with
      the IEEE operations of the kernel.
    - The environment, the file system and the log of calls to the outside
      world are threaded explicitly through a state-and-exception monad.
    - The services and libraries the program calls (the language model, the
      narration generator, the HTTP endpoint, PIL, moviepy, the operating
      system) are not part of the repository: their answers are the fields
      of a record [World] over which every theorem quantifies.
    - The file system holds the files the program itself writes, reads or
      removes (the images and the video); what a service or a library
      writes on its own account (the audio file of the narration, the
      files [download_required_files] fetches) is not tracked.
    - [print] calls write nothing that the program reads back and are left
      out. *)

From Stdlib Require Import ZArith Lia Ascii String List PrimFloat.
From stdpp Require Import base option list strings gmap pretty.

Local Open Scope string_scope.
Local Open Scope Z_scope.

(** ** Python string primitives *)

Module PyStr.

(** [str.isspace] on one character, for code points below 256: TAB..CR,
    FS..US, SPACE, NEL and NBSP. *)
Definition is_space (c : ascii) : bool :=
  let n := N_of_ascii c in
  ((9 <=? n) && (n <=? 13) || (28 <=? n) && (n <=? 32)
   || (n =? 133) || (n =? 160))%N.

(** [s.lstrip()] *)
Fixpoint lstrip (s : string) : string :=
  match s with
  | EmptyString => EmptyString
  | String c s' => if is_space c then lstrip s' else s
  end.

(** [s[::-1]], used to express [rstrip] *)
Fixpoint rev_append (s acc : string) : string :=
  match s with
  | EmptyString => acc
  | String c s' => rev_append s' (String c acc)
  end.

Definition rev (s : string) : string := rev_append s EmptyString.

(** [s.rstrip()] *)
Definition rstrip (s : string) : string := rev (lstrip (rev s)).

(** [s.strip()] *)
Definition strip (s : string) : string := rstrip (lstrip s).

(** [s.split(sep)] for a one-character separator: never returns the empty
    list, and keeps empty fields. *)
Fixpoint split (sep : ascii) (s : string) : list string :=
  match s with
  | EmptyString => [EmptyString]
  | String c s' =>
      if Ascii.eqb c sep then EmptyString :: split sep s'
      else match split sep s' with
           | [] => [String c EmptyString]
           | field :: fields => String c field :: fields
           end
  end.

(** [s.startswith(p)] *)
Definition startswith (s p : string) : bool := String.prefix p s.

(** [s.startswith((p1, ..., pn))]: a tuple of prefixes *)
Definition startswith_any (s : string) (ps : list string) : bool :=
  existsb (startswith s) ps.

(** Truth value of a string: [bool(s)] *)
Definition truthy (s : string) : bool :=
  match s with EmptyString => false | _ => true end.

(** [str(n)] for an [int] *)
Definition str_int (n : Z) : string := pretty n.

(** [l[:k]] for a list [l] and an [int] [k]: a negative [k] counts from the
    end, and the bound is clamped to the list. *)
Definition slice_to {A} (l : list A) (k : Z) : list A :=
  if 0 <=? k then take (Z.to_nat k) l
  else take (length l - Z.to_nat (- k))%nat l.

(** [bs.startswith(p)] for [bytes] *)
Fixpoint bytes_startswith (bs p : list Byte.byte) : bool :=
  match p, bs with
  | [], _ => true
  | _ :: _, [] => false
  | x :: p', y :: bs' => Byte.eqb x y && bytes_startswith bs' p'
  end.

End PyStr.

(** ** Values of the program *)

(** The exceptions the program raises or meets; all of them derive from
    Python's [Exception].  [External] stands for whatever a service or a
    library raises. *)
Inductive exn : Type :=
| ValueError (msg : string)
| Exception (msg : string)
| ZeroDivisionError
| FileNotFoundError (path : string)
| External (what : string).

Inductive result (A : Type) : Type :=
| Ok (a : A)
| Raise (e : exn).
Arguments Ok {A} a.
Arguments Raise {A} e.

(** A PIL image: decoded from a payload by [Image.open], or made by
    [Image.new(mode, (width, height), color)]. *)
Inductive Image : Type :=
| Decoded (data : list Byte.byte)
| New (mode : string) (width height : Z) (color : string).

(** [response] of [requests.post] *)
Record Response : Type := {
  status_code : Z;
  text : string;
  content : list Byte.byte
}.

(** [mpy.AudioFileClip] *)
Record AudioClip : Type := {
  audio_path : string;
  audio_duration : float
}.

(** [mpy.ImageClip(path).set_duration(d)] *)
Record ImageClip : Type := {
  clip_path : string;
  clip_frame : Image;
  clip_duration : float
}.

(** A concatenated clip: its segments with their start times, its length
    and its audio track with the time it starts at. *)
Record VideoClip : Type := {
  segments : list (float * ImageClip);
  video_duration : float;
  audio : option (float * AudioClip)
}.

Inductive File : Type :=
| ImageFile (img : Image)
| VideoFile (clip : VideoClip) (fps : Z).

(** Calls to the outside world, in the order they are made. *)
Inductive event : Type :=
| Narrate (topic : string)
| LLM (prompt : string)
| Post (url : string) (headers json : list (string * string))
| Save (path : string) (img : Image)
| Probe (path : string)
| Read (path : string)
| Concatenate (clips : list ImageClip)
| WriteVideo (path : string) (fps : Z)
| Remove (path : string).

(** The process environment (after [load_dotenv()]), the files the program
    itself writes, reads or removes, and the log of calls. *)
Record State : Type := {
  environ : gmap string string;
  fs : gmap string File;
  log : list event
}.

(** What the outside world answers.  An [option exn] is the exception a
    call raises, if any. *)
Record World : Type := {
  GroqLLM_init : option exn;
  GeneratePodcast_init : option exn;
  download_required_files : option exn;
  llm_generate : string -> result string;
  podcast_generate : string -> result string;
  (* the first argument is the log so far: the same request may be
     answered differently each time *)
  requests_post : list event -> string -> list (string * string) ->
                  list (string * string) -> result Response;
  Image_open : list Byte.byte -> option exn;
  Image_save : Image -> string -> option exn;
  bytes_repr : list Byte.byte -> string;
  AudioFileClip : string -> result float;
  concatenate_error : list ImageClip -> option exn;
  write_videofile_error : VideoClip -> string -> Z -> option exn;
  os_remove_error : string -> option exn
}.

(** ** The state-and-exception monad *)

Definition M (A : Type) : Type := State -> result A * State.

Definition ret {A} (a : A) : M A := fun s => (Ok a, s).

Definition raise {A} (e : exn) : M A := fun s => (Raise e, s).

Definition bind {A B} (m : M A) (k : A -> M B) : M B :=
  fun s => match m s with
           | (Ok a, s') => k a s'
           | (Raise e, s') => (Raise e, s')
           end.

Notation "x <- m ;; k" := (bind m (fun x => k))
  (at level 100, m at next level, right associativity).
Notation "m ;; k" := (bind m (fun _ => k))
  (at level 100, right associativity).

(** [try: m  except Exception as e: h e]; what [m] did before it raised
    stays done. *)
Definition try_except {A} (m : M A) (h : exn -> M A) : M A :=
  fun s => match m s with
           | (Ok a, s') => (Ok a, s')
           | (Raise e, s') => h e s'
           end.

(** A call that either raises or returns nothing. *)
Definition check (o : option exn) : M unit :=
  match o with Some e => raise e | None => ret tt end.

Definition lift {A} (r : result A) : M A :=
  match r with Ok a => ret a | Raise e => raise e end.

Definition emit (e : event) : M unit :=
  fun s => (Ok tt, {| environ := environ s; fs := fs s; log := (log s ++ [e])%list |}).

Definition get_log : M (list event) := fun s => (Ok (log s), s).

Definition get_fs : M (gmap string File) := fun s => (Ok (fs s), s).

Definition set_fs (f : gmap string File) : M unit :=
  fun s => (Ok tt, {| environ := environ s; fs := f; log := log s |}).

(** [os.getenv(name)] *)
Definition getenv (name : string) : M (option string) :=
  fun s => (Ok (environ s !! name), s).

(** [os.environ[name] = value] *)
Definition setenv (name value : string) : M unit :=
  fun s => (Ok tt, {| environ := <[name := value]> (environ s);
                      fs := fs s; log := log s |}).

(** [for x in xs: body x] *)
Fixpoint for_each {A} (xs : list A) (body : A -> M unit) : M unit :=
  match xs with
  | [] => ret tt
  | x :: xs' => body x ;; for_each xs' body
  end.

(** [[body x for x in xs]] *)
Fixpoint comprehension {A B} (xs : list A) (body : A -> M B) : M (list B) :=
  match xs with
  | [] => ret []
  | x :: xs' => y <- body x ;; ys <- comprehension xs' body ;; ret (y :: ys)
  end.

(** [float(n)] for an [int]: exact below 2^53, which the length of a list
    never reaches. *)
Fixpoint float_of_positive (p : positive) : float :=
  match p with
  | xH => 1%float
  | xO p' => (2 * float_of_positive p')%float
  | xI p' => (2 * float_of_positive p' + 1)%float
  end.

Definition float_of_int (n : Z) : float :=
  match n with
  | Z0 => 0%float
  | Zpos p => float_of_positive p
  | Zneg p => (- float_of_positive p)%float
  end.

(** [x / n] for a float [x] and an int [n] *)
Definition truediv (x : float) (n : Z) : M float :=
  if n =? 0 then raise ZeroDivisionError else ret (x / float_of_int n)%float.

(** ** The media primitives *)

(** [Image.save(path)]: a failed save leaves the files as they were. *)
Definition save (W : World) (img : Image) (path : string) : M unit :=
  emit (Save path img) ;;
  check (Image_save W img path) ;;
  f <- get_fs ;;
  set_fs (<[path := ImageFile img]> f).

(** [os.remove(path)] *)
Definition os_remove (W : World) (path : string) : M unit :=
  emit (Remove path) ;;
  f <- get_fs ;;
  match f !! path with
  | None => raise (FileNotFoundError path)
  | Some _ =>
      check (os_remove_error W path) ;;
      set_fs (delete path f)
  end.

(** [mpy.ImageClip(path)]: the image file is read when the clip is made. *)
Definition ImageClip_read (path : string) : M Image :=
  emit (Read path) ;;
  f <- get_fs ;;
  match f !! path with
  | Some (ImageFile img) => ret img
  | Some (VideoFile _ _) => raise (External "imread")
  | None => raise (FileNotFoundError path)
  end.

(** Start times of clips played one after the other from time [t]: each
    clip starts where the one before it ends. *)
Fixpoint chain_from (t : float) (clips : list ImageClip)
  : list (float * ImageClip) :=
  match clips with
  | [] => []
  | c :: clips' => (t, c) :: chain_from (t + clip_duration c)%float clips'
  end.

(** The time at which the last of the clips ends: the running sum of the
    durations, from [t]. *)
Definition chain_end (t : float) (clips : list ImageClip) : float :=
  fold_left (fun acc c => (acc + clip_duration c)%float) clips t.

Definition total_duration (clips : list ImageClip) : float :=
  chain_end 0%float clips.

(** Modelled from the spec: moviepy's [concatenate_videoclips] is not part
    of the repository.  Section 4.3: the images are shown in input order,
    back to back, with no gaps or overlaps; the clip lasts until the last
    image ends. *)
Definition chain (clips : list ImageClip) : VideoClip :=
  {| segments := chain_from 0%float clips;
     video_duration := total_duration clips;
     audio := None |}.

(** Modelled from the spec: section 4.4 counts the case of no image among
    the failures of the assembly step.  moviepy 1.x, the series that has
    [moviepy.editor] (line 5), takes the [max] of the clip sizes and so
    raises a [ValueError] on an empty list. *)
Definition concatenate_videoclips (W : World) (clips : list ImageClip)
  : M VideoClip :=
  emit (Concatenate clips) ;;
  match clips with
  | [] => raise (ValueError "max() arg is an empty sequence")
  | _ :: _ =>
      check (concatenate_error W clips) ;;
      ret (chain clips)
  end.

(** Modelled from the spec: moviepy's [set_audio] is not part of the
    repository.  Section 4.3: the audio track starts at time 0 and runs
    for its full duration. *)
Definition set_audio (v : VideoClip) (a : AudioClip) : VideoClip :=
  {| segments := segments v;
     video_duration := video_duration v;
     audio := Some (0%float, a) |}.

(** [clip.write_videofile(path, fps=fps)]: a failed write leaves the files
    as they were. *)
Definition write_videofile (W : World) (v : VideoClip) (path : string)
    (fps : Z) : M unit :=
  emit (WriteVideo path fps) ;;
  check (write_videofile_error W v path fps) ;;
  f <- get_fs ;;
  set_fs (<[path := VideoFile v fps]> f).

(** ** class GenerateVideo *)

(** The attributes [__init__] sets.  [llm] and [podcast_generator] are
    handles on services of the [World]. *)
Record Self : Type := {
  hf_api_key : option string;
  groq_api_key : string;
  API_URL : string;
  headers : list (string * string)
}.

(** [f"{x}"] for a value that is a string or [None] *)
Definition format_optional (x : option string) : string :=
  match x with Some v => v | None => "None" end.

(** The prefixes of line 41 *)
Definition list_markers : list string :=
  ["#"; "1."; "2."; "3."; "4."; "5."; "6."; "7."; "8."; "9."; "10."].

Definition PNG_magic : list Byte.byte := [Byte.x89; Byte.x50; Byte.x4e; Byte.x47].
Definition JPEG_magic : list Byte.byte := [Byte.xff; Byte.xd8; Byte.xff].

(** [Image.new('RGB', (512, 512), color='gray')] *)
Definition placeholder : Image := New "RGB" 512 512 "gray".

(** [f"output_{i}.png"] *)
Definition output_file (i : Z) : string :=
  "output_" +:+ PyStr.str_int i +:+ ".png".

Definition newline : ascii := "010"%char.

(** Lines 38-42: the loop that collects the prompts of a response. *)
Definition extract_prompts (response : string) : list string :=
  fold_left
    (fun prompts line =>
       let line := PyStr.strip line in
       if PyStr.truthy line && negb (PyStr.startswith_any line list_markers)
       then (prompts ++ [line])%list
       else prompts)
    (PyStr.split newline response) [].

(** Line 34: the request sent to the language model *)
Definition user_prompt (topic : string) (num_prompts : Z) : string :=
  "Generate " +:+ PyStr.str_int num_prompts +:+ " image prompts about "
  +:+ topic +:+ " that would work well in a video sequence.".

Section GenerateVideo.

Variable W : World.

(** Lines 15-31 *)
Definition __init__ : M Self :=
  hf <- getenv "HF_API_KEY" ;;
  groq <- getenv "GROQ_API_KEY" ;;
  match groq with
  | None | Some EmptyString =>
      raise (ValueError "Missing GROQ_API_KEY in .env file.")
  | Some key =>
      let self :=
        {| hf_api_key := hf;
           groq_api_key := key;
           API_URL := "https://api-inference.huggingface.co/models/black-forest-labs/FLUX.1-schnell";
           headers := [("Authorization", "Bearer " +:+ format_optional hf)] |} in
      setenv "GROQ_API_KEY" key ;;
      check (GroqLLM_init W) ;;
      check (GeneratePodcast_init W) ;;
      check (download_required_files W) ;;
      ret self
  end.

(** Lines 33-44 *)
Definition _generate_prompts (topic : string) (num_prompts : Z)
  : M (list string) :=
  let user_prompt := user_prompt topic num_prompts in
  emit (LLM user_prompt) ;;
  response <- lift (llm_generate W user_prompt) ;;
  let prompts := extract_prompts response in
  ret (PyStr.slice_to prompts num_prompts).

(** Lines 47-54: the local function [query] *)
Definition query (self : Self) (payload : list (string * string))
  : M (list Byte.byte) :=
  history <- get_log ;;
  emit (Post (API_URL self) (headers self) payload) ;;
  response <- lift (requests_post W history (API_URL self) (headers self) payload) ;;
  if negb (status_code response =? 200)
  then raise (Exception ("API request failed with status code "
                         +:+ PyStr.str_int (status_code response)
                         +:+ ": " +:+ text response))
  else ret (content response).

(** Lines 46-73 *)
Definition _generate_image (self : Self) (prompt output_path : string)
  : M string :=
  try_except
    (image_bytes <- query self [("inputs", prompt)] ;;
     if negb (PyStr.bytes_startswith image_bytes PNG_magic)
        && negb (PyStr.bytes_startswith image_bytes JPEG_magic)
     then raise (ValueError ("Invalid image data received from API: "
                             +:+ bytes_repr W (take 100 image_bytes)))
     else
       check (Image_open W image_bytes) ;;
       let image := Decoded image_bytes in
       save W image output_path ;;
       ret output_path)
    (fun e =>
       save W placeholder output_path ;;
       ret output_path).

(** Lines 88-91: [for i, prompt in enumerate(prompts, 1): ...], appending
    to [image_files]; [i] is the number of the next prompt. *)
Fixpoint generate_images (self : Self) (i : Z) (prompts image_files : list string)
  : M (list string) :=
  match prompts with
  | [] => ret image_files
  | prompt :: prompts' =>
      let output_file := output_file i in
      path <- _generate_image self prompt output_file ;;
      generate_images self (i + 1) prompts' (image_files ++ [path])%list
  end.

(** Lines 95-101: the assembly of the video *)
Definition assemble (image_files : list string) (audio_path output_path : string)
    (fps : Z) : M unit :=
  emit (Probe audio_path) ;;
  duration <- lift (AudioFileClip W audio_path) ;;
  let audio_clip := {| audio_path := audio_path; audio_duration := duration |} in
  image_clips <-
    comprehension image_files
      (fun img =>
         frame <- ImageClip_read img ;;
         d <- truediv (audio_duration audio_clip) (Z.of_nat (length image_files)) ;;
         ret {| clip_path := img; clip_frame := frame; clip_duration := d |}) ;;
  final_clip <- concatenate_videoclips W image_clips ;;
  let final_clip := set_audio final_clip audio_clip in
  write_videofile W final_clip output_path fps.

(** Lines 104-108: the clean-up loop; the bare [except: pass] swallows
    every exception of [os.remove]. *)
Definition cleanup (image_files : list string) : M unit :=
  for_each image_files
    (fun img_file => try_except (os_remove W img_file) (fun _ => ret tt)).

(** Lines 75-109 *)
Definition generate (self : Self) (topic output_path : string) (fps num_prompts : Z)
  : M string :=
  emit (Narrate topic) ;;
  audio_path <- lift (podcast_generate W topic) ;;
  prompts <- _generate_prompts topic num_prompts ;;
  image_files <- generate_images self 1 prompts [] ;;
  assemble image_files audio_path output_path fps ;;
  cleanup image_files ;;
  ret output_path.

(** [generate(topic)] with the default arguments of line 75 *)
Definition generate_default (self : Self) (topic : string) : M string :=
  generate self topic "final_video.mp4" 24 10.

End GenerateVideo.

(** ** Prompt derivation as the specification words it

    Section 4.1: split the response into lines, trim each line, discard
    the empty lines and the lines that begin with a list marker (a bare
    [#], or a digit 1-10 followed by a literal [.]), keep the rest in
    order, truncated to at most [count] entries. *)

Definition begins_with_list_marker (line : string) : bool :=
  PyStr.startswith line "#"
  || existsb (fun d => PyStr.startswith line (PyStr.str_int d +:+ "."))
             (map Z.of_nat (seq 1 10)).

Definition is_content (line : string) : bool :=
  negb (String.eqb line "") && negb (begins_with_list_marker line).

Definition derive_spec (response : string) (count : Z) : list string :=
  take (Z.to_nat count)
       (List.filter is_content
                    (map PyStr.strip (PyStr.split newline response))).

(** ** Image synthesis as the specification words it

    Section 4.2: the failures of a synthesis call are a request that
    raises, a non-success status, a payload that matches neither magic
    number, a decode error, and any other exception (here: the decoded
    image cannot be saved).  [history] is the log when the call starts. *)

Definition synthesis_fails (W : World) (self : Self) (prompt path : string)
    (history : list event) : Prop :=
  match requests_post W history (API_URL self) (headers self) [("inputs", prompt)] with
  | Raise _ => True
  | Ok response =>
      status_code response <> 200
      \/ (PyStr.bytes_startswith (content response) PNG_magic = false
          /\ PyStr.bytes_startswith (content response) JPEG_magic = false)
      \/ Image_open W (content response) <> None
      \/ Image_save W (Decoded (content response)) path <> None
  end.

(** The service answers every request of this call with a status other
    than 200, or not at all. *)
Definition rejected (W : World) (self : Self) (prompt : string)
    (history : list event) : Prop :=
  forall response,
    requests_post W history (API_URL self) (headers self) [("inputs", prompt)]
    = Ok response ->
    status_code response <> 200.

(** Modelled from the spec: the image service is not part of the
    repository.  Section 6: it takes a bearer-token credential, and
    without the token every image call fails - here: a request whose
    header is [Bearer None] is never answered with status 200. *)
Definition token_required (W : World) : Prop :=
  forall history url json response,
    requests_post W history url [("Authorization", "Bearer None")] json
    = Ok response ->
    status_code response <> 200.

(** An image that a synthesis call writes: the placeholder or a decoded
    payload. *)
Definition synthesized_image (img : Image) : Prop :=
  img = placeholder \/ exists data, img = Decoded data.

(** The calls one prompt gives rise to: the request that carries it,
    followed by saves at its path, the last of which stores [img] - the
    placeholder, or the decoded body of the answer to that request.
    [history] is the log when the request is made. *)
Definition image_block (W : World) (self : Self) (history : list event)
    (prompt path : string) (img : Image) (block : list event) : Prop :=
  exists saves,
    block = Post (API_URL self) (headers self) [("inputs", prompt)] :: saves
    /\ Forall (fun e => exists im, e = Save path im) saves
    /\ last saves = Some (Save path img)
    /\ (img = placeholder
        \/ exists response,
             requests_post W history (API_URL self) (headers self)
                           [("inputs", prompt)] = Ok response
             /\ img = Decoded (content response)).

(** The paths of [n] images numbered from [i]:
    [output_<i>.png] ... [output_<i+n-1>.png] *)
Fixpoint numbered_paths (i : Z) (n : nat) : list string :=
  match n with
  | O => []
  | S n' => output_file i :: numbered_paths (i + 1) n'
  end.

(** ** The parts of [generate] *)

(** Steps 1-3 of [generate] (lines 77-91): the narration, the prompts and
    the images; what is left of [generate] is [assemble], [cleanup] and the
    [return]. *)
Definition prepare (W : World) (self : Self) (topic : string) (num_prompts : Z)
  : M (string * list string) :=
  emit (Narrate topic) ;;
  audio_path <- lift (podcast_generate W topic) ;;
  prompts <- _generate_prompts W topic num_prompts ;;
  image_files <- generate_images W self 1 prompts [] ;;
  ret (audio_path, image_files).

(** Lines 96-97: what the comprehension computes for one image, given the
    duration of the audio and the number of images. *)
Definition timed_clip (duration : float) (n : Z) (img : string) : M ImageClip :=
  frame <- ImageClip_read img ;;
  d <- truediv duration n ;;
  ret {| clip_path := img; clip_frame := frame; clip_duration := d |}.

(** ** States compared *)

(** The state with more calls logged. *)
Definition logged (s : State) (events : list event) : State :=
  {| environ := environ s; fs := fs s; log := (log s ++ events)%list |}.

(** The files removed according to a log. *)
Definition removals (events : list event) : list string :=
  omap (fun e => match e with Remove path => Some path | _ => None end) events.

(** What a synthesis call leaves behind: the same environment, a longer
    log, and the files as they were but for the destination. *)
Definition same_but (path : string) (img : Image) (s s' : State) : Prop :=
  environ s' = environ s
  /\ fs s' = <[path := ImageFile img]> (fs s)
  /\ exists events, log s' = (log s ++ events)%list.

(** Only image files were written between two states. *)
Definition images_added (s s' : State) : Prop :=
  environ s' = environ s
  /\ (exists events, log s' = (log s ++ events)%list)
  /\ forall p, fs s' !! p = fs s !! p
               \/ exists img, fs s' !! p = Some (ImageFile img)
                              /\ synthesized_image img.

(** A clip the comprehension made from the files of a state. *)
Definition clip_of (s : State) (duration : float) (n : Z) (c : ImageClip) : Prop :=
  n <> 0
  /\ clip_duration c = (duration / float_of_int n)%float
  /\ fs s !! clip_path c = Some (ImageFile (clip_frame c)).

(** ** Concrete worlds

    Small worlds and states on which the program is run in the examples
    below. *)

Definition nl : string := String newline EmptyString.

(** A response with a header, a numbered line, a padded line, an empty
    line and a repeated line. *)
Definition sample_response : string :=
  "# Prompts" +:+ nl +:+ "1. first" +:+ nl +:+ "  a wave  " +:+ nl +:+ nl
  +:+ "a reef" +:+ nl +:+ "a wave".

Definition png_response : Response :=
  {| status_code := 200; text := ""; content := PNG_magic |}.

Definition error_response : Response :=
  {| status_code := 503; text := "unavailable"; content := [] |}.

(** A world given by the answers that vary between the examples; every
    other call succeeds, and the narration lasts 12 seconds. *)
Definition world (narration llm : result string)
    (post : list event -> result Response)
    (save_error : Image -> string -> option exn)
    (concatenate : list ImageClip -> option exn)
    (write : option exn) : World :=
  {| GroqLLM_init := None;
     GeneratePodcast_init := None;
     download_required_files := None;
     llm_generate := fun _ => llm;
     podcast_generate := fun _ => narration;
     requests_post := fun history _ _ _ => post history;
     Image_open := fun _ => None;
     Image_save := save_error;
     bytes_repr := fun _ => "b'...'";
     AudioFileClip := fun _ => Ok 12%float;
     concatenate_error := concatenate;
     write_videofile_error := fun _ _ _ => write;
     os_remove_error := fun _ => None |}.

(** Every call succeeds. *)
Definition fair_world : World :=
  world (Ok "podcast.mp3") (Ok sample_response) (fun _ => Ok png_response)
        (fun _ _ => None) (fun _ => None) None.

(** The image service answers 503 to every request. *)
Definition offline_world : World :=
  world (Ok "podcast.mp3") (Ok sample_response) (fun _ => Ok error_response)
        (fun _ _ => None) (fun _ => None) None.

(** The image service fails on the second request of a run that starts
    with an empty log, and only on that one. *)
Definition flaky_world : World :=
  world (Ok "podcast.mp3") (Ok sample_response)
        (fun history => if (length history =? 4)%nat then Ok error_response
                        else Ok png_response)
        (fun _ _ => None) (fun _ => None) None.

(** PIL picks the file format by the extension of the destination and
    refuses a destination without a known one. *)
Definition has_image_extension (path : string) : bool :=
  PyStr.startswith (PyStr.rev path) (PyStr.rev ".png")
  || PyStr.startswith (PyStr.rev path) (PyStr.rev ".jpg").

(** The image service is down and images are saved the way PIL does. *)
Definition pil_world : World :=
  world (Ok "podcast.mp3") (Ok sample_response) (fun _ => Ok error_response)
        (fun _ path => if has_image_extension path then None
                       else Some (ValueError "unknown file extension: "))
        (fun _ => None) None.

(** The working directory is not writable. *)
Definition read_only_world : World :=
  world (Ok "podcast.mp3") (Ok sample_response) (fun _ => Ok png_response)
        (fun _ _ => Some (External "PermissionError"))
        (fun _ => None) None.

(** The files the podcast generator needs cannot be downloaded. *)
Definition no_download_world : World :=
  {| GroqLLM_init := None;
     GeneratePodcast_init := None;
     download_required_files := Some (External "download");
     llm_generate := fun _ => Ok sample_response;
     podcast_generate := fun _ => Ok "podcast.mp3";
     requests_post := fun _ _ _ _ => Ok error_response;
     Image_open := fun _ => None;
     Image_save := fun _ _ => None;
     bytes_repr := fun _ => "b'...'";
     AudioFileClip := fun _ => Ok 12%float;
     concatenate_error := fun _ => None;
     write_videofile_error := fun _ _ _ => None;
     os_remove_error := fun _ => None |}.

(** The narration service fails. *)
Definition no_narration_world : World :=
  world (Raise (External "narration")) (Ok sample_response)
        (fun _ => Ok png_response) (fun _ _ => None) (fun _ => None) None.

(** The language model fails. *)
Definition no_llm_world : World :=
  world (Ok "podcast.mp3") (Raise (External "groq"))
        (fun _ => Ok png_response) (fun _ _ => None) (fun _ => None) None.

(** The video encoder fails. *)
Definition no_encoder_world : World :=
  world (Ok "podcast.mp3") (Ok sample_response) (fun _ => Ok png_response)
        (fun _ _ => None) (fun _ => None) (Some (External "ffmpeg")).

Definition empty_state : State :=
  {| environ := ∅; fs := ∅; log := [] |}.


(** Only the text-generation credential is set. *)
Definition groq_only_state : State :=
  {| environ := {[ "GROQ_API_KEY" := "gsk" ]}; fs := ∅; log := [] |}.

(** Two image files on disk. *)
Definition two_images_state : State :=
  {| environ := ∅;
     fs := {[ "a.png" := ImageFile placeholder;
              "b.png" := ImageFile (Decoded PNG_magic) ]};
     log := [] |}.

(** The object [__init__] builds in [groq_only_state]. *)
Definition sample_self : Self :=
  {| hf_api_key := None;
     groq_api_key := "gsk";
     API_URL := "https://api-inference.huggingface.co/models/black-forest-labs/FLUX.1-schnell";
     headers := [("Authorization", "Bearer None")] |}.

(** ** Further notions

    The requests a log holds, in order: URL, headers and JSON body. *)

Definition posts (events : list event)
  : list (string * list (string * string) * list (string * string)) :=
  omap (fun e => match e with
                 | Post url hs json => Some (url, hs, json)
                 | _ => None
                 end) events.

(** The paths a log shows the program writing to, with [Image.save] or
    [write_videofile], in order. *)
Definition writes (events : list event) : list string :=
  omap (fun e => match e with
                 | Save path _ => Some path
                 | WriteVideo path _ => Some path
                 | _ => None
                 end) events.

(** A path of the form [output_<i>.png]. *)
Definition numbered (path : string) : Prop :=
  exists i : Z, path = output_file i.

(** A response that is a numbered list, the way chat models like to
    answer. *)
Definition numbered_list_response : string :=
  "# Image prompts" +:+ nl +:+ "1. A wave at dawn" +:+ nl
  +:+ "2. A reef from above" +:+ nl +:+ " 10. A storm " +:+ nl.

Definition numbered_list_world : World :=
  world (Ok "podcast.mp3") (Ok numbered_list_response)
        (fun _ => Ok png_response) (fun _ _ => None) (fun _ => None) None.

(** The text-generation credential is set, but empty. *)
Definition empty_key_state : State :=
  {| environ := {[ "GROQ_API_KEY" := ""; "HF_API_KEY" := "hf_token" ]};
     fs := ∅; log := [] |}.

(** Both credentials are set. *)
Definition both_keys_state : State :=
  {| environ := {[ "GROQ_API_KEY" := "gsk"; "HF_API_KEY" := "hf_token" ]};
     fs := ∅; log := [] |}.

(** The image service answers 200 with a body of two bytes. *)
Definition truncated_world : World :=
  world (Ok "podcast.mp3") (Ok sample_response)
        (fun _ => Ok {| status_code := 200; text := "";
                        content := [Byte.xff; Byte.xd8] |})
        (fun _ _ => None) (fun _ => None) None.

(** The request that a prompt gives rise to. *)
Definition request_for (self : Self) (prompt : string)
  : string * list (string * string) * list (string * string) :=
  (API_URL self, headers self, [("inputs", prompt)]).


(** The first numbered file is protected against removal. *)
Definition sticky_world : World :=
  {| GroqLLM_init := None;
     GeneratePodcast_init := None;
     download_required_files := None;
     llm_generate := fun _ => Ok sample_response;
     podcast_generate := fun _ => Ok "podcast.mp3";
     requests_post := fun _ _ _ _ => Ok png_response;
     Image_open := fun _ => None;
     Image_save := fun _ _ => None;
     bytes_repr := fun _ => "b'...'";
     AudioFileClip := fun _ => Ok 12%float;
     concatenate_error := fun _ => None;
     write_videofile_error := fun _ _ _ => None;
     os_remove_error := fun path =>
       if String.eqb path "a.png" then Some (External "PermissionError")
       else None |}.

(** * Properties *)

(** ** Running the monad *)

Lemma bind_ok {A B} (m : M A) (k : A -> M B) s a s' :
  m s = (Ok a, s') -> bind m k s = k a s'.
Proof. intros H. unfold bind. now rewrite H. Qed.

Lemma bind_raise {A B} (m : M A) (k : A -> M B) s e s' :
  m s = (Raise e, s') -> bind m k s = (Raise e, s').
Proof. intros H. unfold bind. now rewrite H. Qed.

(** ** Prompt derivation *)

Lemma truthy_eqb line : PyStr.truthy line = negb (String.eqb line "").
Proof. now destruct line. Qed.

Lemma list_markers_spec line :
  PyStr.startswith_any line list_markers = begins_with_list_marker line.
Proof.
  unfold PyStr.startswith_any, begins_with_list_marker, list_markers.
  reflexivity.
Qed.

Lemma keep_is_content line :
  PyStr.truthy line && negb (PyStr.startswith_any line list_markers)
  = is_content line.
Proof. unfold is_content. now rewrite truthy_eqb, list_markers_spec. Qed.

(** The loop of lines 38-42 is a filter over the trimmed lines. *)
Lemma collect_filter (lines acc : list string) :
  fold_left
    (fun prompts line =>
       let line := PyStr.strip line in
       if PyStr.truthy line && negb (PyStr.startswith_any line list_markers)
       then (prompts ++ [line])%list
       else prompts)
    lines acc
  = (acc ++ List.filter is_content (map PyStr.strip lines))%list.
Proof.
  revert acc. induction lines as [|line lines IH]; intros acc.
  - cbn [fold_left map List.filter]. now rewrite app_nil_r.
  - cbn [fold_left map List.filter]. rewrite IH. cbv zeta.
    rewrite keep_is_content.
    destruct (is_content (PyStr.strip line)).
    + now rewrite <- app_assoc.
    + reflexivity.
Qed.

Lemma extract_prompts_filter response :
  extract_prompts response
  = List.filter is_content (map PyStr.strip (PyStr.split newline response)).
Proof. unfold extract_prompts. now rewrite collect_filter. Qed.

Lemma slice_to_nonneg {A} (l : list A) k :
  0 <= k -> PyStr.slice_to l k = take (Z.to_nat k) l.
Proof. intros H. unfold PyStr.slice_to. now rewrite (proj2 (Z.leb_le 0 k) H). Qed.

Lemma slice_to_neg {A} (l : list A) k :
  k < 0 -> PyStr.slice_to l k = take (length l - Z.to_nat (- k))%nat l.
Proof. intros H. unfold PyStr.slice_to. now rewrite (proj2 (Z.leb_gt 0 k) H). Qed.

Lemma _generate_prompts_run W topic k s :
  _generate_prompts W topic k s
  = match llm_generate W (user_prompt topic k) with
    | Ok response =>
        (Ok (PyStr.slice_to (extract_prompts response) k),
         {| environ := environ s; fs := fs s;
            log := (log s ++ [LLM (user_prompt topic k)])%list |})
    | Raise e =>
        (Raise e,
         {| environ := environ s; fs := fs s;
            log := (log s ++ [LLM (user_prompt topic k)])%list |})
    end.
Proof.
  unfold _generate_prompts, bind, emit, lift. cbn.
  now destruct (llm_generate W (user_prompt topic k)).
Qed.

Lemma filter_sublist {A} (f : A -> bool) (l : list A) :
  sublist (List.filter f l) l.
Proof.
  induction l as [|x l IH]; cbn; [constructor|].
  destruct (f x); now constructor.
Qed.

(** C4: for a count k >= 1 and any response of the language model, prompt
    derivation returns the trimmed lines of the response that are neither
    empty nor begin with [#] or with [1.] ... [10.], in their order and
    with their repetitions, cut to the first k: between 0 and k strings. *)
Theorem C4_prompt_derivation W topic k response s :
  1 <= k ->
  llm_generate W (user_prompt topic k) = Ok response ->
  exists prompts,
    fst (_generate_prompts W topic k s) = Ok prompts
    /\ prompts = derive_spec response k
    /\ (0 <= Z.of_nat (length prompts) <= k)
    /\ sublist prompts (map PyStr.strip (PyStr.split newline response))
    /\ Forall (fun p => p <> "" /\ PyStr.startswith_any p list_markers = false)
              prompts.
Proof.
  intros Hk Hllm. rewrite _generate_prompts_run, Hllm. cbn [fst].
  eexists; split; [reflexivity|].
  rewrite slice_to_nonneg by lia. rewrite extract_prompts_filter.
  split; [reflexivity|]. split; [|split].
  - rewrite length_take. lia.
  - etransitivity; [apply sublist_take | apply filter_sublist].
  - apply Forall_take, Forall_forall. intros p Hp.
    apply list_elem_of_In, filter_In in Hp. destruct Hp as [_ Hp].
    unfold is_content in Hp. apply andb_prop in Hp. destruct Hp as [H1 H2].
    rewrite list_markers_spec. split.
    + intros ->. discriminate.
    + now destruct (begins_with_list_marker p).
Qed.

Lemma C4_prompt_derivation_witness :
  exists prompts,
    fst (_generate_prompts fair_world "ocean" 2 empty_state) = Ok prompts
    /\ prompts = derive_spec sample_response 2
    /\ (0 <= Z.of_nat (length prompts) <= 2)
    /\ sublist prompts (map PyStr.strip (PyStr.split newline sample_response))
    /\ Forall (fun p => p <> "" /\ PyStr.startswith_any p list_markers = false)
              prompts.
Proof.
  apply (C4_prompt_derivation fair_world "ocean" 2 sample_response empty_state);
    [lia | reflexivity].
Defined.

(** Repeated lines are kept: nothing is deduplicated. *)
Example derive_keeps_duplicates :
  fst (_generate_prompts fair_world "ocean" 10 empty_state)
  = Ok ["a wave"; "a reef"; "a wave"].
Proof. reflexivity. Qed.

(** C9: with a negative count the slice [prompts[:num_prompts]] drops the
    last |count| filtered lines and returns all the others, so the result
    is not bounded by the count. *)
Theorem C9_negative_count W topic k response s :
  k < 0 ->
  llm_generate W (user_prompt topic k) = Ok response ->
  exists prompts,
    fst (_generate_prompts W topic k s) = Ok prompts
    /\ prompts = take (length (extract_prompts response) - Z.to_nat (- k))%nat
                      (extract_prompts response)
    /\ length prompts = (length (extract_prompts response) - Z.to_nat (- k))%nat
    /\ ~ (Z.of_nat (length prompts) <= k).
Proof.
  intros Hk Hllm. rewrite _generate_prompts_run, Hllm. cbn [fst].
  eexists; split; [reflexivity|].
  rewrite slice_to_neg by lia.
  split; [reflexivity|]. split.
  - rewrite length_take. lia.
  - lia.
Qed.

Lemma C9_negative_count_witness :
  fst (_generate_prompts fair_world "ocean" (-1) empty_state)
  = Ok ["a wave"; "a reef"]
  /\ exists prompts,
    fst (_generate_prompts fair_world "ocean" (-1) empty_state) = Ok prompts
    /\ prompts = take (length (extract_prompts sample_response) - Z.to_nat (- -1))%nat
                      (extract_prompts sample_response)
    /\ length prompts = (length (extract_prompts sample_response) - Z.to_nat (- -1))%nat
    /\ ~ (Z.of_nat (length prompts) <= -1).
Proof.
  split; [reflexivity|].
  apply (C9_negative_count fair_world "ocean" (-1) sample_response empty_state);
    [lia | reflexivity].
Defined.

(** C10: two runs of [_generate_prompts] with the same topic and count, in
    any two worlds and states in which the language model gives the same
    response, return the same prompt list. *)
Theorem C10_prompts_deterministic W1 W2 topic k response s1 s2 :
  llm_generate W1 (user_prompt topic k) = Ok response ->
  llm_generate W2 (user_prompt topic k) = Ok response ->
  fst (_generate_prompts W1 topic k s1) = fst (_generate_prompts W2 topic k s2)
  /\ fst (_generate_prompts W1 topic k s1)
     = Ok (PyStr.slice_to (extract_prompts response) k).
Proof.
  intros H1 H2. rewrite !_generate_prompts_run, H1, H2. now split.
Qed.

Lemma C10_prompts_deterministic_witness :
  fst (_generate_prompts fair_world "ocean" 3 empty_state)
  = fst (_generate_prompts offline_world "ocean" 3 groq_only_state)
  /\ fst (_generate_prompts fair_world "ocean" 3 empty_state)
     = Ok (PyStr.slice_to (extract_prompts sample_response) 3).
Proof.
  apply (C10_prompts_deterministic fair_world offline_world "ocean" 3
           sample_response empty_state groq_only_state); reflexivity.
Defined.

(** ** Image synthesis *)

Lemma _generate_image_run W self prompt path s :
  Image_save W placeholder path = None ->
  exists s',
    _generate_image W self prompt path s = (Ok path, s')
    /\ (synthesis_fails W self prompt path (log s) ->
        same_but path placeholder s s')
    /\ (~ synthesis_fails W self prompt path (log s) ->
        exists response,
          requests_post W (log s) (API_URL self) (headers self) [("inputs", prompt)]
          = Ok response
          /\ same_but path (Decoded (content response)) s s').
Proof.
  intros Hsave.
  unfold synthesis_fails, same_but.
  unfold _generate_image, try_except, query, save, bind, get_log, emit, lift,
    check, get_fs, set_fs, raise, ret; cbn.
  destruct (requests_post W (log s) (API_URL self) (headers self)
              [("inputs", prompt)]) as [response|e]; cbn.
  2:{ rewrite Hsave. eexists; split; [reflexivity|]. cbn.
      split; [|tauto]. intros _. repeat split.
      rewrite <- app_assoc. eauto. }
  destruct (Z.eqb_spec (status_code response) 200) as [H200|H200]; cbn.
  2:{ rewrite Hsave. eexists; split; [reflexivity|]. cbn.
      split; [|tauto]. intros _. repeat split.
      rewrite <- app_assoc. eauto. }
  destruct (PyStr.bytes_startswith (content response) PNG_magic) eqn:Hpng;
  destruct (PyStr.bytes_startswith (content response) JPEG_magic) eqn:Hjpeg; cbn.
  4:{ rewrite Hsave. eexists; split; [reflexivity|]. cbn.
      split; [|tauto]. intros _. repeat split.
      rewrite <- app_assoc. eauto. }
  all: destruct (Image_open W (content response)) as [e|] eqn:Hopen; cbn.
  all: try (rewrite Hsave; eexists; split; [reflexivity|]; cbn;
      split; [intros _; repeat split; rewrite <- app_assoc; eauto
             | intros Hn; exfalso; apply Hn; right; right; left; discriminate]).
  all: destruct (Image_save W (Decoded (content response)) path) as [e|] eqn:Hs; cbn.
  all: try (rewrite Hsave; eexists; split; [reflexivity|]; cbn;
      split; [intros _; repeat split; rewrite <- !app_assoc; eauto
             | intros Hn; exfalso; apply Hn; right; right; right; discriminate]).
  all: eexists; split; [reflexivity|]; cbn; split;
      [ intros [Hf|[[Hf1 Hf2]|[Hf|Hf]]]; congruence
      | intros _; eexists; split; [reflexivity|]; repeat split;
        rewrite <- app_assoc; eauto ].
Qed.

(** C3 (amended): whenever the placeholder can be saved at the destination,
    image synthesis returns the destination path; if the call fails (the
    request raises, the status is not 200, the payload has neither magic
    number, it does not decode or cannot be saved) the file at the
    destination is the 512x512 gray placeholder, and otherwise it is the
    decoded payload. *)
Theorem C3_image_synthesis W self prompt path s :
  Image_save W placeholder path = None ->
  exists s',
    _generate_image W self prompt path s = (Ok path, s')
    /\ (synthesis_fails W self prompt path (log s) ->
        fs s' !! path = Some (ImageFile (New "RGB" 512 512 "gray")))
    /\ (~ synthesis_fails W self prompt path (log s) ->
        exists response,
          requests_post W (log s) (API_URL self) (headers self) [("inputs", prompt)]
          = Ok response
          /\ fs s' !! path = Some (ImageFile (Decoded (content response)))).
Proof.
  intros Hsave.
  destruct (_generate_image_run W self prompt path s Hsave)
    as (s' & Hrun & Hfail & Hok).
  exists s'. split; [exact Hrun|]. split.
  - intros H. destruct (Hfail H) as (_ & Hfs & _).
    rewrite Hfs. apply lookup_insert_eq.
  - intros H. destruct (Hok H) as (response & Hpost & _ & Hfs & _).
    exists response. split; [exact Hpost|].
    rewrite Hfs. apply lookup_insert_eq.
Qed.

Lemma C3_image_synthesis_witness :
  exists s',
    _generate_image offline_world sample_self "a wave" "output_1.png" empty_state
    = (Ok "output_1.png", s')
    /\ (synthesis_fails offline_world sample_self "a wave" "output_1.png"
                        (log empty_state) ->
        fs s' !! "output_1.png" = Some (ImageFile (New "RGB" 512 512 "gray")))
    /\ (~ synthesis_fails offline_world sample_self "a wave" "output_1.png"
                          (log empty_state) ->
        exists response,
          requests_post offline_world (log empty_state) (API_URL sample_self)
                        (headers sample_self) [("inputs", "a wave")]
          = Ok response
          /\ fs s' !! "output_1.png" = Some (ImageFile (Decoded (content response)))).
Proof.
  apply (C3_image_synthesis offline_world sample_self "a wave" "output_1.png"
           empty_state).
  reflexivity.
Defined.

(** C3 fails as stated: for a destination that PIL cannot save to (here a
    path without an extension) the handler's own save raises, so the call
    raises and no placeholder is written. *)
Lemma C3_image_synthesis_counterexample :
  let run := _generate_image pil_world sample_self "a wave" "frame" empty_state in
  fst run = Raise (ValueError "unknown file extension: ")
  /\ fs (snd run) !! "frame" = None.
Proof. split; reflexivity. Qed.

(** ** Construction *)

Lemma rejected_fails W self prompt path history :
  rejected W self prompt history -> synthesis_fails W self prompt path history.
Proof.
  unfold rejected, synthesis_fails. intros H.
  destruct (requests_post W history (API_URL self) (headers self)
              [("inputs", prompt)]) as [response|e]; [|exact I].
  left. now apply H.
Qed.

Lemma token_required_rejected W self prompt history :
  token_required W ->
  headers self = [("Authorization", "Bearer None")] ->
  rejected W self prompt history.
Proof.
  intros Htoken Hh response Hpost. rewrite Hh in Hpost.
  exact (Htoken _ _ _ _ Hpost).
Qed.

(** C7 (amended): without [GROQ_API_KEY] construction raises a [ValueError]
    that names it.  Without [HF_API_KEY] construction does not raise on
    that account: it succeeds whenever the set-up of the collaborators
    does, and every later image request carries the header
    [Bearer None].  The service, which requires the token, rejects every
    such request; and a call whose request is rejected saves the
    placeholder and returns, provided the placeholder can be saved at the
    destination. *)
Theorem C7_credentials W s :
  (environ s !! "GROQ_API_KEY" = None ->
   __init__ W s = (Raise (ValueError "Missing GROQ_API_KEY in .env file."), s))
  /\ (forall key,
        environ s !! "GROQ_API_KEY" = Some key -> key <> "" ->
        environ s !! "HF_API_KEY" = None ->
        GroqLLM_init W = None -> GeneratePodcast_init W = None ->
        download_required_files W = None ->
        exists self s',
          __init__ W s = (Ok self, s')
          /\ hf_api_key self = None
          /\ headers self = [("Authorization", "Bearer None")]
          /\ (token_required W ->
              forall prompt history, rejected W self prompt history)
          /\ forall prompt path s1,
               rejected W self prompt (log s1) ->
               Image_save W placeholder path = None ->
               exists s2,
                 _generate_image W self prompt path s1 = (Ok path, s2)
                 /\ fs s2 !! path = Some (ImageFile placeholder)).
Proof.
  split.
  - intros Hgroq. unfold __init__, bind, getenv. cbn. now rewrite Hgroq.
  - intros key Hgroq Hkey Hhf Hllm Hpod Hdl.
    unfold __init__, bind, getenv, setenv, check. cbn.
    rewrite Hgroq, Hhf, Hllm, Hpod, Hdl.
    destruct key as [|c key]; [congruence|]. cbn.
    eexists; eexists. split; [reflexivity|]. cbn.
    split; [reflexivity|]. split; [reflexivity|]. split.
    { intros Htoken prompt history.
      now apply token_required_rejected. }
    intros prompt path s1 Hrej Hsave.
    pose proof (rejected_fails _ _ _ path _ Hrej) as Hf.
    lazymatch type of Hrej with
    | rejected _ ?self _ _ =>
        destruct (_generate_image_run W self prompt path s1 Hsave)
          as (s2 & Hrun & Hfail & _)
    end.
    exists s2. split; [exact Hrun|].
    destruct (Hfail Hf) as (_ & Hfs & _).
    rewrite Hfs. apply lookup_insert_eq.
Qed.

Lemma offline_world_requires_token : token_required offline_world.
Proof. intros history url json response [= <-]. discriminate. Qed.

Lemma C7_credentials_witness :
  (environ empty_state !! "GROQ_API_KEY" = None ->
   __init__ offline_world empty_state
   = (Raise (ValueError "Missing GROQ_API_KEY in .env file."), empty_state))
  /\ exists self s',
       __init__ offline_world groq_only_state = (Ok self, s')
       /\ hf_api_key self = None
       /\ headers self = [("Authorization", "Bearer None")]
       /\ (token_required offline_world ->
           forall prompt history, rejected offline_world self prompt history)
       /\ forall prompt path s1,
            rejected offline_world self prompt (log s1) ->
            Image_save offline_world placeholder path = None ->
            exists s2,
              _generate_image offline_world self prompt path s1 = (Ok path, s2)
              /\ fs s2 !! path = Some (ImageFile placeholder).
Proof.
  split.
  - exact (proj1 (C7_credentials offline_world empty_state)).
  - apply (proj2 (C7_credentials offline_world groq_only_state) "gsk");
      [reflexivity | discriminate | reflexivity | reflexivity | reflexivity
      | reflexivity].
Defined.

(** C7 fails as stated, twice over.  With [HF_API_KEY] absent and
    [GROQ_API_KEY] set, construction still raises when the set-up of a
    collaborator does.  And after a construction that succeeded, with a
    service that rejects the request, an image call does not fall back
    when the placeholder cannot be saved at its destination: it raises,
    and nothing is written. *)
Lemma C7_credentials_counterexample :
  environ groq_only_state !! "HF_API_KEY" = None
  /\ fst (__init__ no_download_world groq_only_state)
     = Raise (External "download")
  /\ token_required pil_world
  /\ exists s',
       __init__ pil_world groq_only_state = (Ok sample_self, s')
       /\ fst (_generate_image pil_world sample_self "a wave" "frame" s')
          = Raise (ValueError "unknown file extension: ")
       /\ fs (snd (_generate_image pil_world sample_self "a wave" "frame" s'))
            !! "frame" = None.
Proof.
  split; [reflexivity|]. split; [vm_compute; reflexivity|]. split.
  { intros history url json response [= <-]. discriminate. }
  exists (snd (__init__ pil_world groq_only_state)).
  split; [|split]; vm_compute; reflexivity.
Qed.

(** ** Failures of narration and of prompt derivation *)

(** C8: a failure of the narration call, or of the language-model call of
    prompt derivation, reaches the caller of [generate] as it is; the call
    that failed was made once, nothing was substituted for its result, and
    no file was written. *)
Theorem C8_early_failures_propagate W self topic output_path fps k s e :
  (podcast_generate W topic = Raise e ->
   generate W self topic output_path fps k s
   = (Raise e, {| environ := environ s; fs := fs s;
                  log := (log s ++ [Narrate topic])%list |}))
  /\ (forall audio,
        podcast_generate W topic = Ok audio ->
        llm_generate W (user_prompt topic k) = Raise e ->
        generate W self topic output_path fps k s
        = (Raise e, {| environ := environ s; fs := fs s;
                       log := (log s ++ [Narrate topic; LLM (user_prompt topic k)])%list |})).
Proof.
  split.
  - intros H. unfold generate, bind, emit, lift. cbn. now rewrite H.
  - intros audio Hn Hl. unfold generate. unfold bind at 1 2. unfold emit, lift.
    cbn. rewrite Hn. cbn. unfold bind at 1.
    rewrite _generate_prompts_run, Hl. cbn. now rewrite <- app_assoc.
Qed.

Lemma C8_early_failures_propagate_witness :
  generate_default no_narration_world sample_self "ocean" empty_state
  = (Raise (External "narration"),
     {| environ := ∅; fs := ∅; log := [Narrate "ocean"] |})
  /\ generate_default no_llm_world sample_self "ocean" empty_state
     = (Raise (External "groq"),
        {| environ := ∅; fs := ∅;
           log := [Narrate "ocean"; LLM (user_prompt "ocean" 10)] |}).
Proof.
  split.
  - apply (proj1 (C8_early_failures_propagate no_narration_world sample_self
                    "ocean" "final_video.mp4" 24 10 empty_state
                    (External "narration"))).
    reflexivity.
  - apply (proj2 (C8_early_failures_propagate no_llm_world sample_self
                    "ocean" "final_video.mp4" 24 10 empty_state
                    (External "groq")) "podcast.mp3");
      reflexivity.
Defined.

(** ** The image loop *)

Lemma numbered_paths_length i n : length (numbered_paths i n) = n.
Proof. revert i. induction n as [|n IH]; intros i; cbn; [|rewrite IH]; reflexivity. Qed.

Lemma numbered_paths_lookup i n (j : nat) :
  (j < n)%nat -> numbered_paths i n !! j = Some (output_file (i + Z.of_nat j)).
Proof.
  revert i j. induction n as [|n IH]; intros i j Hj; [lia|].
  destruct j as [|j]; cbn.
  - now rewrite Z.add_0_r.
  - rewrite IH by lia. do 2 f_equal. lia.
Qed.

(** The numbered paths are pairwise distinct. *)

Lemma list_ascii_of_append s t :
  list_ascii_of_string (s +:+ t)
  = (list_ascii_of_string s ++ list_ascii_of_string t)%list.
Proof.
  induction s as [|c s IH]; [reflexivity|].
  change (String c s +:+ t) with (String c (s +:+ t)).
  cbn [list_ascii_of_string]. now rewrite IH.
Qed.

Lemma append_inv_tail s1 s2 t : s1 +:+ t = s2 +:+ t -> s1 = s2.
Proof.
  intros H. apply (f_equal list_ascii_of_string) in H.
  rewrite !list_ascii_of_append in H. apply app_inv_tail in H.
  apply (f_equal string_of_list_ascii) in H.
  now rewrite !string_of_list_ascii_of_string in H.
Qed.

Lemma output_file_inj i j : output_file i = output_file j -> i = j.
Proof.
  unfold output_file, PyStr.str_int. intros H.
  apply (String.app_inj "output_") in H.
  apply append_inv_tail in H.
  now apply (inj pretty) in H.
Qed.

Lemma numbered_paths_elem i n p :
  p ∈ numbered_paths i n ->
  exists j : nat, (j < n)%nat /\ p = output_file (i + Z.of_nat j).
Proof.
  intros Hp. apply list_elem_of_lookup in Hp. destruct Hp as [j Hj].
  assert (Hlt : (j < n)%nat).
  { apply lookup_lt_Some in Hj. now rewrite numbered_paths_length in Hj. }
  exists j. split; [exact Hlt|].
  rewrite (numbered_paths_lookup i n j Hlt) in Hj. congruence.
Qed.

Lemma numbered_paths_NoDup i n : NoDup (numbered_paths i n).
Proof.
  revert i. induction n as [|n IH]; intros i; cbn; constructor; [|apply IH].
  intros Hin. apply numbered_paths_elem in Hin. destruct Hin as (j & _ & Hj).
  apply output_file_inj in Hj. lia.
Qed.

Lemma images_added_refl s : images_added s s.
Proof.
  split; [reflexivity|]. split; [exists []; now rewrite app_nil_r|]. now left.
Qed.

Lemma images_added_trans s1 s2 s3 :
  images_added s1 s2 -> images_added s2 s3 -> images_added s1 s3.
Proof.
  intros (He1 & [ev1 Hl1] & Hf1) (He2 & [ev2 Hl2] & Hf2).
  split; [congruence|]. split.
  - exists (ev1 ++ ev2)%list. now rewrite Hl2, Hl1, app_assoc.
  - intros p. destruct (Hf2 p) as [H2|H2]; [|now right].
    rewrite H2. apply Hf1.
Qed.

Lemma _generate_image_effect W self prompt path s :
  Image_save W placeholder path = None ->
  exists s' img,
    _generate_image W self prompt path s = (Ok path, s')
    /\ synthesized_image img
    /\ fs s' !! path = Some (ImageFile img)
    /\ images_added s s'.
Proof.
  intros Hsave.
  destruct (_generate_image_run W self prompt path s Hsave)
    as (s' & Hrun & Hfail & Hok).
  assert (Hcase : exists img, synthesized_image img /\ same_but path img s s').
  { destruct (requests_post W (log s) (API_URL self) (headers self)
                [("inputs", prompt)]) as [response|e] eqn:Hpost.
    - destruct (Z.eq_dec (status_code response) 200) as [H200|H200].
      + destruct (PyStr.bytes_startswith (content response) PNG_magic
                  || PyStr.bytes_startswith (content response) JPEG_magic) eqn:Hm.
        * destruct (Image_open W (content response)) as [e|] eqn:Ho.
          -- exists placeholder. split; [now left|]. apply Hfail.
             unfold synthesis_fails. rewrite Hpost. right; right; left. congruence.
          -- destruct (Image_save W (Decoded (content response)) path) as [e|] eqn:Hs.
             ++ exists placeholder. split; [now left|]. apply Hfail.
                unfold synthesis_fails. rewrite Hpost. right; right; right. congruence.
             ++ destruct Hok as (r & Hr & Hsame).
                { unfold synthesis_fails. rewrite Hpost.
                  intros [Hf|[[Hf1 Hf2]|[Hf|Hf]]]; try congruence.
                  rewrite Hf1, Hf2 in Hm. discriminate. }
                exists (Decoded (content r)). split; [right; eauto|exact Hsame].
        * exists placeholder. split; [now left|]. apply Hfail.
          unfold synthesis_fails. rewrite Hpost. right; left.
          now apply orb_false_elim in Hm.
      + exists placeholder. split; [now left|]. apply Hfail.
        unfold synthesis_fails. rewrite Hpost. now left.
    - exists placeholder. split; [now left|]. apply Hfail.
      unfold synthesis_fails. now rewrite Hpost. }
  destruct Hcase as (img & Himg & He & Hfs & Hlog).
  exists s', img. split; [exact Hrun|]. split; [exact Himg|]. split.
  - rewrite Hfs. apply lookup_insert_eq.
  - split; [exact He|]. split; [exact Hlog|].
    intros p. rewrite Hfs. destruct (decide (path = p)) as [->|Hne].
    + right. exists img. split; [apply lookup_insert_eq|exact Himg].
    + left. now apply lookup_insert_ne.
Qed.

(** The loop of lines 88-91 returns one numbered path per prompt, whatever
    the image service answered, as long as the placeholder can be saved. *)
Lemma generate_images_run W self prompts :
  forall i image_files s,
    (forall j, (j < length prompts)%nat ->
               Image_save W placeholder (output_file (i + Z.of_nat j)) = None) ->
    exists s',
      generate_images W self i prompts image_files s
      = (Ok (image_files ++ numbered_paths i (length prompts))%list, s')
      /\ images_added s s'
      /\ forall j, (j < length prompts)%nat ->
           exists img, fs s' !! output_file (i + Z.of_nat j) = Some (ImageFile img)
                       /\ synthesized_image img.
Proof.
  induction prompts as [|prompt prompts IH]; intros i image_files s Hsave.
  - exists s. cbn. rewrite app_nil_r. split; [reflexivity|].
    split; [apply images_added_refl|]. intros j Hj. cbn in Hj. lia.
  - cbn [generate_images length numbered_paths].
    destruct (_generate_image_effect W self prompt (output_file i) s)
      as (s1 & img & Hrun & Himg & Hfs & Hadd).
    { specialize (Hsave 0%nat). rewrite Z.add_0_r in Hsave. apply Hsave. cbn. lia. }
    destruct (IH (i + 1) (image_files ++ [output_file i])%list s1)
      as (s' & Hrest & Hadd' & Hfiles).
    { intros j Hj. replace (i + 1 + Z.of_nat j) with (i + Z.of_nat (S j)) by lia.
      apply Hsave. cbn. lia. }
    exists s'. split.
    + rewrite (bind_ok _ _ _ _ _ Hrun), Hrest. now rewrite <- app_assoc.
    + split; [eapply images_added_trans; eassumption|].
      intros [|j] Hj.
      * rewrite Z.add_0_r. destruct Hadd' as (_ & _ & Hf).
        destruct (Hf (output_file i)) as [Hsame|Hnew]; [|exact Hnew].
        exists img. now rewrite Hsame.
      * replace (i + Z.of_nat (S j)) with (i + 1 + Z.of_nat j) by lia.
        apply Hfiles. cbn in Hj. lia.
Qed.

(** ** The structure of [generate] *)

Lemma bind_assoc {A B C} (m : M A) (f : A -> M B) (g : B -> M C) s :
  bind (bind m f) g s = bind m (fun a => bind (f a) g) s.
Proof.
  unfold bind. destruct (m s) as [[a|e] s1]; [|reflexivity].
  reflexivity.
Qed.

Lemma bind_ext {A B} (m : M A) (f g : A -> M B) s :
  (forall a s', f a s' = g a s') -> bind m f s = bind m g s.
Proof.
  intros H. unfold bind. destruct (m s) as [[a|e] s1]; [apply H|reflexivity].
Qed.

Lemma generate_split W self topic output_path fps k s :
  generate W self topic output_path fps k s
  = (x <- prepare W self topic k ;;
     assemble W (snd x) (fst x) output_path fps ;;
     cleanup W (snd x) ;;
     ret output_path) s.
Proof.
  unfold generate, prepare. symmetry.
  rewrite bind_assoc. apply bind_ext; intros [] s0.
  rewrite bind_assoc. apply bind_ext; intros audio s1.
  rewrite bind_assoc. apply bind_ext; intros prompts s2.
  rewrite bind_assoc. apply bind_ext; intros files s3.
  reflexivity.
Qed.

Lemma prepare_run W self topic k s audio response :
  podcast_generate W topic = Ok audio ->
  llm_generate W (user_prompt topic k) = Ok response ->
  let prompts := PyStr.slice_to (extract_prompts response) k in
  (forall j, (j < length prompts)%nat ->
             Image_save W placeholder (output_file (1 + Z.of_nat j)) = None) ->
  exists s1,
    prepare W self topic k s
    = (Ok (audio, numbered_paths 1 (length prompts)), s1)
    /\ images_added s s1
    /\ forall j, (j < length prompts)%nat ->
         exists img, fs s1 !! output_file (1 + Z.of_nat j) = Some (ImageFile img)
                     /\ synthesized_image img.
Proof.
  intros Hn Hl prompts Hsave.
  set (s0 := logged s [Narrate topic; LLM (user_prompt topic k)]).
  destruct (generate_images_run W self prompts 1 [] s0 Hsave)
    as (s1 & Hrun & Hadd & Hfiles).
  exists s1. split; [|split].
  - unfold prepare. unfold bind at 1 2. unfold emit, lift. cbn.
    rewrite Hn. cbn. unfold bind at 1. rewrite _generate_prompts_run, Hl. cbn.
    fold prompts. unfold bind.
    replace {| environ := environ s; fs := fs s;
               log := ((log s ++ [Narrate topic]) ++ [LLM (user_prompt topic k)])%list |}
      with s0 by (unfold s0, logged; now rewrite <- app_assoc).
    now rewrite Hrun.
  - eapply images_added_trans; [|exact Hadd].
    split; [reflexivity|]. split; [eexists; reflexivity|]. now left.
  - exact Hfiles.
Qed.

(** ** One image per prompt *)

(** Closes a branch of [_generate_image_block]: the block is read off
    the log of the state reached. *)
Ltac exists_block img :=
  eexists; exists img; eexists;
  split; [reflexivity|]; cbn;
  split; [reflexivity|];
  split; [rewrite <- ?app_assoc; reflexivity|];
  split; [|reflexivity];
  eexists; split; [reflexivity|];
  split; [repeat constructor; eauto|];
  split; [reflexivity|];
  first [now left | right; eauto].

Lemma _generate_image_block W self prompt path s :
  Image_save W placeholder path = None ->
  exists s' img block,
    _generate_image W self prompt path s = (Ok path, s')
    /\ environ s' = environ s
    /\ log s' = (log s ++ block)%list
    /\ image_block W self (log s) prompt path img block
    /\ fs s' = <[path := ImageFile img]> (fs s).
Proof.
  intros Hsave. unfold image_block.
  unfold _generate_image, try_except, query, save, bind, get_log, emit, lift,
    check, get_fs, set_fs, raise, ret; cbn.
  destruct (requests_post W (log s) (API_URL self) (headers self)
              [("inputs", prompt)]) as [response|e0]; cbn.
  2:{ rewrite Hsave. exists_block placeholder. }
  destruct (Z.eqb_spec (status_code response) 200) as [H200|H200]; cbn.
  2:{ rewrite Hsave. exists_block placeholder. }
  destruct (negb (PyStr.bytes_startswith (content response) PNG_magic)
            && negb (PyStr.bytes_startswith (content response) JPEG_magic));
    cbn.
  { rewrite Hsave. exists_block placeholder. }
  destruct (Image_open W (content response)) as [e1|]; cbn.
  { rewrite Hsave. exists_block placeholder. }
  destruct (Image_save W (Decoded (content response)) path) as [e2|]; cbn.
  { rewrite Hsave. exists_block placeholder. }
  exists_block (Decoded (content response)).
Qed.

(** The loop of lines 88-91, call by call: block [j] of the log belongs to
    prompt [j] and leaves its image at path [j]; no later call touches
    that path. *)
Lemma generate_images_blocks W self prompts :
  forall i image_files s,
    (forall j, (j < length prompts)%nat ->
               Image_save W placeholder (output_file (i + Z.of_nat j)) = None) ->
    exists s' blocks,
      generate_images W self i prompts image_files s
      = (Ok (image_files ++ numbered_paths i (length prompts))%list, s')
      /\ log s' = (log s ++ concat blocks)%list
      /\ length blocks = length prompts
      /\ (forall p, p ∉ numbered_paths i (length prompts) ->
                    fs s' !! p = fs s !! p)
      /\ forall (j : nat) prompt,
           prompts !! j = Some prompt ->
           exists block img,
             blocks !! j = Some block
             /\ image_block W self (log s ++ concat (take j blocks))%list
                            prompt (output_file (i + Z.of_nat j)) img block
             /\ fs s' !! output_file (i + Z.of_nat j) = Some (ImageFile img).
Proof.
  induction prompts as [|prompt prompts IH]; intros i image_files s Hsave.
  - exists s, []. cbn. rewrite !app_nil_r. repeat split; auto.
    intros j prompt Hj. destruct j; discriminate.
  - cbn [generate_images length numbered_paths].
    destruct (_generate_image_block W self prompt (output_file i) s)
      as (s1 & img & block & Hrun & _ & Hlog & Hblock & Hfs).
    { specialize (Hsave 0%nat). rewrite Z.add_0_r in Hsave. apply Hsave. cbn. lia. }
    destruct (IH (i + 1) (image_files ++ [output_file i])%list s1)
      as (s' & blocks & Hrest & Hlog' & Hlen & Hframe & Hblocks).
    { intros j Hj. replace (i + 1 + Z.of_nat j) with (i + Z.of_nat (S j)) by lia.
      apply Hsave. cbn. lia. }
    exists s', (block :: blocks).
    split; [|split; [|split; [|split]]].
    + rewrite (bind_ok _ _ _ _ _ Hrun), Hrest. now rewrite <- app_assoc.
    + rewrite Hlog', Hlog. cbn [concat]. now rewrite <- app_assoc.
    + cbn. now rewrite Hlen.
    + intros p Hp. rewrite Hframe.
      * rewrite Hfs. apply lookup_insert_ne. intros <-. apply Hp.
        apply elem_of_cons. now left.
      * intros Hin. apply Hp. apply elem_of_cons. now right.
    + intros [|j] prompt' Hj; cbn in Hj.
      * injection Hj as <-. exists block, img.
        split; [reflexivity|]. cbn [take concat]. rewrite app_nil_r, Z.add_0_r.
        split; [exact Hblock|].
        rewrite Hframe; [rewrite Hfs; apply lookup_insert_eq|].
        intros Hin. apply numbered_paths_elem in Hin.
        destruct Hin as (j' & _ & Hj'). apply output_file_inj in Hj'. lia.
      * destruct (Hblocks j prompt' Hj) as (block' & img' & Hb & Hib & Hf).
        exists block', img'. split; [exact Hb|].
        replace (i + Z.of_nat (S j)) with (i + 1 + Z.of_nat j) by lia.
        split; [|exact Hf].
        cbn [take concat]. rewrite app_assoc, <- Hlog. exact Hib.
Qed.

(** C6 (amended): in every run of [generate] in which the placeholder can
    be saved at the numbered paths, N derived prompts give exactly the N
    paths [output_1.png] ... [output_N.png], in this order and pairwise
    distinct, and these are what assembly and clean-up receive.  The
    calls made for the images come in N blocks, one per prompt in the
    order of the prompts: block j is the request that carries prompt j,
    followed by the saves at [output_<j>.png]; and the image that path
    holds when assembly starts is the one its block saved last - the
    decoded answer to that request, or the placeholder. *)
Theorem C6_one_image_per_prompt W self topic output_path fps k s audio response :
  podcast_generate W topic = Ok audio ->
  llm_generate W (user_prompt topic k) = Ok response ->
  let prompts := PyStr.slice_to (extract_prompts response) k in
  let image_files := numbered_paths 1 (length prompts) in
  let start := (log s ++ [Narrate topic; LLM (user_prompt topic k)])%list in
  (forall j, (j < length prompts)%nat ->
             Image_save W placeholder (output_file (1 + Z.of_nat j)) = None) ->
  exists s1 blocks,
    generate W self topic output_path fps k s
    = (assemble W image_files audio output_path fps ;;
       cleanup W image_files ;;
       ret output_path) s1
    /\ length image_files = length prompts
    /\ NoDup image_files
    /\ log s1 = (start ++ concat blocks)%list
    /\ length blocks = length prompts
    /\ forall (j : nat) prompt,
         prompts !! j = Some prompt ->
         image_files !! j = Some (output_file (1 + Z.of_nat j))
         /\ exists block img,
              blocks !! j = Some block
              /\ image_block W self (start ++ concat (take j blocks))%list
                             prompt (output_file (1 + Z.of_nat j)) img block
              /\ fs s1 !! output_file (1 + Z.of_nat j) = Some (ImageFile img).
Proof.
  intros Hn Hl prompts image_files start Hsave.
  destruct (generate_images_blocks W self prompts 1 []
              (logged s [Narrate topic; LLM (user_prompt topic k)]) Hsave)
    as (s1 & blocks & Hloop & Hlog & Hlen & _ & Hblocks).
  exists s1, blocks.
  split; [|split; [|split; [|split; [|split]]]].
  - unfold generate. unfold bind at 1 2. unfold emit, lift. cbn. rewrite Hn. cbn.
    unfold bind at 1. rewrite _generate_prompts_run, Hl. cbn.
    fold prompts. unfold bind at 1.
    replace {| environ := environ s; fs := fs s;
               log := ((log s ++ [Narrate topic]) ++ [LLM (user_prompt topic k)])%list |}
      with (logged s [Narrate topic; LLM (user_prompt topic k)])
      by (unfold logged; now rewrite <- app_assoc).
    now rewrite Hloop.
  - apply numbered_paths_length.
  - apply numbered_paths_NoDup.
  - exact Hlog.
  - exact Hlen.
  - intros j prompt Hj. split.
    + apply numbered_paths_lookup. now apply lookup_lt_Some in Hj.
    + exact (Hblocks j prompt Hj).
Qed.

Lemma C6_one_image_per_prompt_witness :
  let prompts := PyStr.slice_to (extract_prompts sample_response) 3 in
  let image_files := numbered_paths 1 (length prompts) in
  let start := (log empty_state ++ [Narrate "ocean"; LLM (user_prompt "ocean" 3)])%list in
  exists s1 blocks,
    generate flaky_world sample_self "ocean" "final_video.mp4" 24 3 empty_state
    = (assemble flaky_world image_files "podcast.mp3" "final_video.mp4" 24 ;;
       cleanup flaky_world image_files ;;
       ret "final_video.mp4") s1
    /\ length image_files = length prompts
    /\ NoDup image_files
    /\ log s1 = (start ++ concat blocks)%list
    /\ length blocks = length prompts
    /\ forall (j : nat) prompt,
         prompts !! j = Some prompt ->
         image_files !! j = Some (output_file (1 + Z.of_nat j))
         /\ exists block img,
              blocks !! j = Some block
              /\ image_block flaky_world sample_self
                             (start ++ concat (take j blocks))%list
                             prompt (output_file (1 + Z.of_nat j)) img block
              /\ fs s1 !! output_file (1 + Z.of_nat j) = Some (ImageFile img).
Proof.
  apply (C6_one_image_per_prompt flaky_world sample_self "ocean"
           "final_video.mp4" 24 3 empty_state "podcast.mp3" sample_response);
    [reflexivity | reflexivity | intros j Hj; reflexivity].
Defined.

(** The second of three image calls fails: the run completes, the second
    segment of the video is the placeholder, the others are the images
    received, and the three numbered files are gone afterwards. *)
Example second_call_fails :
  let run := generate flaky_world sample_self "ocean" "final_video.mp4" 24 3
               empty_state in
  fst run = Ok "final_video.mp4"
  /\ (exists v,
        fs (snd run) !! "final_video.mp4" = Some (VideoFile v 24)
        /\ map (fun seg => (clip_path (snd seg), clip_frame (snd seg))) (segments v)
           = [("output_1.png", Decoded PNG_magic);
              ("output_2.png", placeholder);
              ("output_3.png", Decoded PNG_magic)])
  /\ fs (snd run) !! "output_1.png" = None
  /\ fs (snd run) !! "output_2.png" = None
  /\ fs (snd run) !! "output_3.png" = None.
Proof.
  split; [vm_compute; reflexivity|]. split.
  - eexists. split; vm_compute; reflexivity.
  - repeat split; vm_compute; reflexivity.
Qed.

(** C6 fails as stated: when the numbered files cannot be written, three
    prompts are derived but the first image call raises out of the loop,
    and nothing is passed to assembly. *)
Lemma C6_one_image_per_prompt_counterexample :
  fst (_generate_prompts read_only_world "ocean" 3 empty_state)
  = Ok ["a wave"; "a reef"; "a wave"]
  /\ generate read_only_world sample_self "ocean" "final_video.mp4" 24 3 empty_state
     = (Raise (External "PermissionError"),
        {| environ := ∅; fs := ∅;
           log := [Narrate "ocean"; LLM (user_prompt "ocean" 3);
                   Post (API_URL sample_self) (headers sample_self)
                        [("inputs", "a wave")];
                   Save "output_1.png" (Decoded PNG_magic);
                   Save "output_1.png" placeholder] |}).
Proof. split; vm_compute; reflexivity. Qed.

(** ** Assembly and clean-up *)

Lemma removals_app l1 l2 : removals (l1 ++ l2) = (removals l1 ++ removals l2)%list.
Proof. unfold removals. apply omap_app. Qed.

Lemma removals_map_Remove files : removals (map Remove files) = files.
Proof.
  unfold removals. induction files as [|f files IH]; cbn;
    [reflexivity | now rewrite IH].
Qed.

Lemma timed_clip_run D n img s r s' :
  timed_clip D n img s = (r, s') ->
  environ s' = environ s /\ fs s' = fs s /\ log s' = (log s ++ [Read img])%list
  /\ match r with
     | Ok c => clip_path c = img /\ clip_of s D n c
     | Raise _ => True
     end.
Proof.
  unfold timed_clip, ImageClip_read, truediv, bind, emit, get_fs, clip_of. cbn.
  destruct (fs s !! img) as [[frame|v fps]|] eqn:Hf; cbn.
  - unfold raise, ret.
    destruct (Z.eqb_spec n 0) as [Hn|Hn]; cbn; intros [= <- <-]; cbn;
      repeat split; auto.
  - unfold raise. intros [= <- <-]. cbn. repeat split; auto.
  - unfold raise. intros [= <- <-]. cbn. repeat split; auto.
Qed.

Lemma clips_run D n files :
  forall s r s',
    comprehension files (timed_clip D n) s = (r, s') ->
    environ s' = environ s /\ fs s' = fs s
    /\ removals (log s') = removals (log s)
    /\ match r with
       | Ok clips => map clip_path clips = files /\ Forall (clip_of s D n) clips
       | Raise _ => True
       end.
Proof.
  induction files as [|img files IH]; intros s r s' Hrun.
  - cbn in Hrun. injection Hrun as <- <-. cbn. auto.
  - cbn [comprehension] in Hrun. unfold bind at 1 in Hrun.
    destruct (timed_clip D n img s) as [[c|e] s1] eqn:Hc.
    + apply timed_clip_run in Hc. destruct Hc as (He1 & Hf1 & Hl1 & Hp & Hclip).
      unfold bind at 1 in Hrun.
      destruct (comprehension files (timed_clip D n) s1) as [[clips|e] s2] eqn:Hcs.
      * apply IH in Hcs. destruct Hcs as (He2 & Hf2 & Hl2 & Hmap & Hall).
        injection Hrun as <- <-.
        split; [congruence|]. split; [congruence|]. split.
        { rewrite Hl2, Hl1, removals_app. cbn. now rewrite app_nil_r. }
        split; [cbn; congruence|]. constructor; [exact Hclip|].
        eapply Forall_impl; [exact Hall|]. intros c' (H1 & H2 & H3).
        repeat split; [exact H1|exact H2|]. now rewrite <- Hf1.
      * apply IH in Hcs. destruct Hcs as (He2 & Hf2 & Hl2 & _).
        injection Hrun as <- <-.
        split; [congruence|]. split; [congruence|]. split; [|exact I].
        rewrite Hl2, Hl1, removals_app. cbn. now rewrite app_nil_r.
    + apply timed_clip_run in Hc. destruct Hc as (He1 & Hf1 & Hl1 & _).
      injection Hrun as <- <-.
      split; [exact He1|]. split; [exact Hf1|]. split; [|exact I].
      rewrite Hl1, removals_app. cbn. now rewrite app_nil_r.
Qed.

(** What [assemble] does to a state: it removes nothing; when it raises
    the files are as they were, and when it returns the only change is the
    video at the output path. *)
Lemma assemble_run W files audio output_path fps s r s' :
  assemble W files audio output_path fps s = (r, s') ->
  environ s' = environ s
  /\ removals (log s') = removals (log s)
  /\ match r with
     | Raise _ => fs s' = fs s
     | Ok _ =>
         exists D clips,
           AudioFileClip W audio = Ok D
           /\ map clip_path clips = files
           /\ Forall (clip_of s D (Z.of_nat (length files))) clips
           /\ fs s' = <[output_path :=
                          VideoFile (set_audio (chain clips)
                                       {| audio_path := audio; audio_duration := D |})
                                    fps]> (fs s)
     end.
Proof.
  unfold assemble. unfold bind at 1 2. unfold emit, lift. cbn.
  destruct (AudioFileClip W audio) as [D|e]; cbn.
  2:{ intros [= <- <-]. cbn. rewrite removals_app. cbn. now rewrite app_nil_r. }
  unfold bind at 1.
  change (fun img : string => _) with (timed_clip D (Z.of_nat (length files))).
  destruct (comprehension files (timed_clip D (Z.of_nat (length files))) _)
    as [[clips|e] s1] eqn:Hc; apply clips_run in Hc; cbn in Hc;
    destruct Hc as (He & Hf & Hl & Hclips).
  2:{ intros [= <- <-]. rewrite removals_app in Hl. cbn in Hl.
      rewrite app_nil_r in Hl. auto. }
  destruct Hclips as [Hmap Hall].
  unfold concatenate_videoclips, write_videofile, bind, emit, check, get_fs,
    set_fs. cbn.
  rewrite removals_app in Hl. cbn in Hl. rewrite app_nil_r in Hl.
  destruct clips as [|c0 clips0] eqn:Hcl; cbn.
  { intros [= <- <-]. cbn. rewrite removals_app. cbn. rewrite app_nil_r. auto. }
  rewrite <- Hcl in *. clear Hcl c0 clips0.
  destruct (concatenate_error W clips) as [e|]; cbn.
  { intros [= <- <-]. cbn. rewrite removals_app. cbn. rewrite app_nil_r. auto. }
  destruct (write_videofile_error W _ output_path fps) as [e|]; cbn.
  { intros [= <- <-]. cbn. rewrite !removals_app. cbn. rewrite !app_nil_r. auto. }
  intros [= <- <-]. cbn. rewrite !removals_app. cbn. rewrite !app_nil_r.
  split; [exact He|]. split; [exact Hl|].
  exists D, clips. rewrite Hf. auto.
Qed.

(** The clean-up loop never raises; it tries every file in turn, removes
    those it can, and adds no file. *)
Lemma cleanup_run W files :
  forall s,
    exists s',
      cleanup W files s = (Ok tt, s')
      /\ environ s' = environ s
      /\ log s' = (log s ++ map Remove files)%list
      /\ (forall p, fs s' !! p = None \/ fs s' !! p = fs s !! p)
      /\ (forall f, f ∈ files -> os_remove_error W f = None -> fs s' !! f = None).
Proof.
  induction files as [|f files IH]; intros s.
  - exists s. cbn. rewrite app_nil_r. repeat split; auto. intros f Hf.
    now apply elem_of_nil in Hf.
  - assert (Hstep : exists s1,
               try_except (os_remove W f) (fun _ => ret tt) s = (Ok tt, s1)
               /\ environ s1 = environ s
               /\ log s1 = (log s ++ [Remove f])%list
               /\ (forall p, fs s1 !! p = None \/ fs s1 !! p = fs s !! p)
               /\ (os_remove_error W f = None -> fs s1 !! f = None)).
    { unfold try_except, os_remove, bind, emit, get_fs, set_fs, check. cbn.
      destruct (fs s !! f) as [file|] eqn:Hf; cbn.
      - destruct (os_remove_error W f) as [e|]; cbn.
        + eexists. split; [reflexivity|]. cbn. repeat split; auto. discriminate.
        + eexists. split; [reflexivity|]. cbn. repeat split; auto.
          * intros p. destruct (decide (f = p)) as [->|Hne].
            -- left. apply lookup_delete_eq.
            -- right. now apply lookup_delete_ne.
          * intros _. apply lookup_delete_eq.
      - eexists. split; [reflexivity|]. cbn. repeat split; auto. }
    destruct Hstep as (s1 & Hrun1 & He1 & Hl1 & Hfs1 & Hrm1).
    destruct (IH s1) as (s' & Hrun & He & Hl & Hfs & Hrm).
    exists s'. split; [|split; [|split; [|split]]].
    + cbn [cleanup for_each]. rewrite (bind_ok _ _ _ _ _ Hrun1). exact Hrun.
    + congruence.
    + rewrite Hl, Hl1. cbn. now rewrite <- app_assoc.
    + intros p. destruct (Hfs p) as [H|H]; [now left|].
      rewrite H. apply Hfs1.
    + intros g Hg Herr. apply elem_of_cons in Hg. destruct Hg as [->|Hg].
      * destruct (Hfs f) as [H|H]; [exact H|]. rewrite H. now apply Hrm1.
      * now apply Hrm.
Qed.

(** C2 (amended): the image files are removed after an assembly that
    succeeds: every one of them is tried, in order, and those the system
    lets go are gone when [generate] returns.  When assembly raises, the
    exception reaches the caller at once: no removal is attempted and the
    files stay as they were. *)
Theorem C2_cleanup_follows_assembly W self topic output_path fps k s
    audio image_files s1 r s2 :
  prepare W self topic k s = (Ok (audio, image_files), s1) ->
  assemble W image_files audio output_path fps s1 = (r, s2) ->
  match r with
  | Raise e =>
      generate W self topic output_path fps k s = (Raise e, s2)
      /\ fs s2 = fs s1
      /\ removals (log s2) = removals (log s1)
  | Ok _ =>
      exists s3,
        generate W self topic output_path fps k s = (Ok output_path, s3)
        /\ log s3 = (log s2 ++ map Remove image_files)%list
        /\ forall f, f ∈ image_files -> os_remove_error W f = None ->
                     fs s3 !! f = None
  end.
Proof.
  intros Hprep Hasm.
  pose proof (generate_split W self topic output_path fps k s) as Hgen.
  rewrite (bind_ok _ _ _ _ _ Hprep) in Hgen. cbn [fst snd] in Hgen.
  destruct r as [[]|e].
  - rewrite (bind_ok _ _ _ _ _ Hasm) in Hgen.
    destruct (cleanup_run W image_files s2) as (s3 & Hrun & _ & Hlog & _ & Hrm).
    rewrite (bind_ok _ _ _ _ _ Hrun) in Hgen.
    exists s3. split; [exact Hgen|]. split; [exact Hlog|exact Hrm].
  - rewrite (bind_raise _ _ _ _ _ Hasm) in Hgen.
    apply assemble_run in Hasm. destruct Hasm as (_ & Hrem & Hfs).
    split; [exact Hgen|]. split; [exact Hfs|exact Hrem].
Qed.

Lemma C2_cleanup_follows_assembly_witness :
  (let s1 := snd (prepare no_encoder_world sample_self "ocean" 3 empty_state) in
   let files := ["output_1.png"; "output_2.png"; "output_3.png"] in
   let s2 := snd (assemble no_encoder_world files "podcast.mp3" "final_video.mp4" 24 s1) in
   generate no_encoder_world sample_self "ocean" "final_video.mp4" 24 3 empty_state
   = (Raise (External "ffmpeg"), s2)
   /\ fs s2 = fs s1
   /\ removals (log s2) = removals (log s1))
  /\ (let s1 := snd (prepare fair_world sample_self "ocean" 3 empty_state) in
      let files := ["output_1.png"; "output_2.png"; "output_3.png"] in
      let s2 := snd (assemble fair_world files "podcast.mp3" "final_video.mp4" 24 s1) in
      exists s3,
        generate fair_world sample_self "ocean" "final_video.mp4" 24 3 empty_state
        = (Ok "final_video.mp4", s3)
        /\ log s3 = (log s2 ++ map Remove files)%list
        /\ forall f, f ∈ files -> os_remove_error fair_world f = None ->
                     fs s3 !! f = None).
Proof.
  split.
  - intros s1 files s2.
    apply (C2_cleanup_follows_assembly no_encoder_world sample_self "ocean"
             "final_video.mp4" 24 3 empty_state "podcast.mp3" files s1
             (Raise (External "ffmpeg")) s2);
      vm_compute; reflexivity.
  - intros s1 files s2.
    apply (C2_cleanup_follows_assembly fair_world sample_self "ocean"
             "final_video.mp4" 24 3 empty_state "podcast.mp3" files s1
             (Ok tt) s2);
      vm_compute; reflexivity.
Defined.

(** C2 fails as stated: when the encoder fails, [generate] raises with the
    three image files still in place and not one removal attempted. *)
Lemma C2_cleanup_follows_assembly_counterexample :
  let run := generate no_encoder_world sample_self "ocean" "final_video.mp4" 24 3
               empty_state in
  fst run = Raise (External "ffmpeg")
  /\ removals (log (snd run)) = []
  /\ fs (snd run) !! "output_1.png" = Some (ImageFile (Decoded PNG_magic))
  /\ fs (snd run) !! "output_2.png" = Some (ImageFile (Decoded PNG_magic))
  /\ fs (snd run) !! "output_3.png" = Some (ImageFile (Decoded PNG_magic)).
Proof. repeat split; vm_compute; reflexivity. Qed.

(** ** The empty prompt list *)

Lemma slice_to_0 {A} (l : list A) : PyStr.slice_to l 0 = [].
Proof. reflexivity. Qed.

(** C1: when [num_prompts] is 0 or no prompt is derived, the run does not
    fail on a division: no image clip is made and no per-image duration
    is computed.  It raises instead: the [ValueError] of the empty clip
    list, when the list reaches the concatenation - or, before that, the
    exception of the audio probe when the audio cannot be opened.  No
    image is requested and no file is written. *)
Theorem C1_empty_prompt_list W self topic output_path fps k s audio response :
  podcast_generate W topic = Ok audio ->
  llm_generate W (user_prompt topic k) = Ok response ->
  k = 0 \/ PyStr.slice_to (extract_prompts response) k = [] ->
  exists e s',
    generate W self topic output_path fps k s = (Raise e, s')
    /\ environ s' = environ s
    /\ fs s' = fs s
    /\ match AudioFileClip W audio with
       | Ok _ =>
           e = ValueError "max() arg is an empty sequence"
           /\ log s' = (log s ++ [Narrate topic; LLM (user_prompt topic k);
                                  Probe audio; Concatenate []])%list
       | Raise e' =>
           e = e'
           /\ log s' = (log s ++ [Narrate topic; LLM (user_prompt topic k);
                                  Probe audio])%list
       end
    /\ (e = ZeroDivisionError ->
        AudioFileClip W audio = Raise ZeroDivisionError).
Proof.
  intros Hn Hl Hk.
  assert (Hnil : PyStr.slice_to (extract_prompts response) k = []).
  { destruct Hk as [->|Hk]; [apply slice_to_0|exact Hk]. }
  unfold generate. unfold bind at 1 2. unfold emit, lift. cbn. rewrite Hn. cbn.
  unfold bind at 1. rewrite _generate_prompts_run, Hl, Hnil. cbn.
  unfold bind at 1. cbn.
  unfold assemble. unfold bind at 1 2 3. unfold emit, lift. cbn.
  destruct (AudioFileClip W audio) as [D|e']; cbn.
  - unfold concatenate_videoclips, bind, emit, raise. cbn.
    eexists; eexists. split; [reflexivity|]. cbn.
    repeat split; [now rewrite <- !app_assoc | discriminate].
  - eexists; eexists. split; [reflexivity|]. cbn.
    repeat split; [now rewrite <- !app_assoc | congruence].
Qed.

Lemma C1_empty_prompt_list_witness :
  exists e s',
    generate fair_world sample_self "ocean" "final_video.mp4" 24 0 empty_state
    = (Raise e, s')
    /\ environ s' = environ empty_state
    /\ fs s' = fs empty_state
    /\ (e = ValueError "max() arg is an empty sequence"
        /\ log s' = (log empty_state
                     ++ [Narrate "ocean"; LLM (user_prompt "ocean" 0);
                         Probe "podcast.mp3"; Concatenate []])%list)
    /\ (e = ZeroDivisionError ->
        AudioFileClip fair_world "podcast.mp3" = Raise ZeroDivisionError).
Proof.
  apply (C1_empty_prompt_list fair_world sample_self "ocean" "final_video.mp4"
           24 0 empty_state "podcast.mp3" sample_response);
    [reflexivity | reflexivity | now left].
Defined.

(** A numbered list for an answer leaves no prompt, and the run ends the
    same way, before a single image is requested. *)
Example numbered_list_stops_the_run :
  generate_default numbered_list_world sample_self "ocean" empty_state
  = (Raise (ValueError "max() arg is an empty sequence"),
     {| environ := ∅; fs := ∅;
        log := [Narrate "ocean"; LLM (user_prompt "ocean" 10);
                Probe "podcast.mp3"; Concatenate []] |}).
Proof. vm_compute. reflexivity. Qed.

(** ** Timing of the assembled video *)

Lemma chain_from_clips t clips : map snd (chain_from t clips) = clips.
Proof.
  revert t. induction clips as [|c clips IH]; intros t; cbn;
    [reflexivity | now rewrite IH].
Qed.




(** [assemble] returns whenever the audio can be probed, the images are
    on disk and neither the concatenation nor the encoder fails. *)
Lemma clips_succeed D n files :
  n <> 0%Z ->
  forall s,
    (forall f, f ∈ files -> exists img, fs s !! f = Some (ImageFile img)) ->
    exists clips s',
      comprehension files (timed_clip D n) s = (Ok clips, s')
      /\ fs s' = fs s /\ length clips = length files.
Proof.
  intros Hn. induction files as [|f files IH]; intros s Hfiles.
  - exists [], s. repeat split.
  - destruct (Hfiles f) as [img Himg]; [apply elem_of_cons; now left|].
    assert (Hc : exists s1,
               timed_clip D n f s
               = (Ok {| clip_path := f; clip_frame := img;
                        clip_duration := (D / float_of_int n)%float |}, s1)
               /\ fs s1 = fs s).
    { unfold timed_clip, ImageClip_read, truediv, bind, emit, get_fs. cbn.
      rewrite Himg. cbn. rewrite (proj2 (Z.eqb_neq n 0) Hn). cbn.
      eexists. split; reflexivity. }
    destruct Hc as (s1 & Hc & Hfs1).
    destruct (IH s1) as (clips & s' & Hrun & Hfs & Hlen).
    { intros g Hg. rewrite Hfs1. apply Hfiles. apply elem_of_cons. now right. }
    eexists. exists s'. split; [|split; [congruence|]].
    + cbn [comprehension]. rewrite (bind_ok _ _ _ _ _ Hc).
      rewrite (bind_ok _ _ _ _ _ Hrun). reflexivity.
    + cbn. now rewrite Hlen.
Qed.

Lemma assemble_succeeds W image_files narration output_path fps s D :
  image_files <> [] ->
  AudioFileClip W narration = Ok D ->
  (forall f, f ∈ image_files -> exists img, fs s !! f = Some (ImageFile img)) ->
  (forall clips, concatenate_error W clips = None) ->
  (forall v, write_videofile_error W v output_path fps = None) ->
  exists s', assemble W image_files narration output_path fps s = (Ok tt, s').
Proof.
  intros Hne HD Hfiles Hconcat Hwrite.
  unfold assemble. unfold bind at 1 2. unfold emit, lift. cbn. rewrite HD. cbn.
  unfold bind at 1.
  change (fun img : string => _)
    with (timed_clip D (Z.of_nat (length image_files))).
  match goal with
  | |- context [comprehension _ _ ?s0] =>
      destruct (clips_succeed D (Z.of_nat (length image_files)) image_files)
        with (s := s0) as (clips & s1 & Hrun & _ & Hlen)
  end.
  { destruct image_files; [contradiction|cbn; lia]. }
  { exact Hfiles. }
  rewrite Hrun.
  destruct clips as [|c0 clips0].
  { destruct image_files; [contradiction|discriminate]. }
  unfold concatenate_videoclips, write_videofile, bind, emit, check, get_fs,
    set_fs. cbn.
  rewrite Hconcat. cbn. rewrite Hwrite. cbn. eexists. reflexivity.
Qed.




(** Three prompts and a narration of 12 seconds: three segments of 4
    seconds that start at 0, 4 and 8, and the numbered files removed. *)
Example three_segments_of_four_seconds :
  let run := generate fair_world sample_self "ocean currents" "final_video.mp4"
               24 3 empty_state in
  fst run = Ok "final_video.mp4"
  /\ (exists v,
        fs (snd run) !! "final_video.mp4" = Some (VideoFile v 24)
        /\ map (fun seg => (fst seg, clip_path (snd seg),
                            clip_duration (snd seg)))
               (segments v)
           = [(0%float, "output_1.png", 4%float);
              (4%float, "output_2.png", 4%float);
              (8%float, "output_3.png", 4%float)]
        /\ video_duration v = 12%float)
  /\ removals (log (snd run)) = ["output_1.png"; "output_2.png"; "output_3.png"]
  /\ map fst (map_to_list (fs (snd run))) = ["final_video.mp4"].
Proof.
  split; [vm_compute; reflexivity|]. split.
  - eexists. split; [vm_compute; reflexivity|]. split; vm_compute; reflexivity.
  - split; vm_compute; reflexivity.
Qed.

(** * Further properties of the code *)

(** ** Prompt derivation (lines 33-44) *)

Lemma slice_to_nil {A} k : PyStr.slice_to (@nil A) k = [].
Proof. unfold PyStr.slice_to. destruct (0 <=? k); apply take_nil. Qed.

Lemma slice_to_Forall {A} (P : A -> Prop) l k :
  Forall P l -> Forall P (PyStr.slice_to l k).
Proof. intros H. unfold PyStr.slice_to. destruct (0 <=? k); now apply Forall_take. Qed.

(** X1: when every line of the response, once trimmed, is empty or begins
    with [#] or [1.] ... [10.] - a numbered list - prompt derivation
    returns no prompt at all, whatever the count. *)
Theorem X1_numbered_list_gives_no_prompt W topic k response s :
  llm_generate W (user_prompt topic k) = Ok response ->
  Forall (fun line =>
            PyStr.strip line = ""
            \/ PyStr.startswith_any (PyStr.strip line) list_markers = true)
         (PyStr.split newline response) ->
  fst (_generate_prompts W topic k s) = Ok [].
Proof.
  intros Hl Hlines. rewrite _generate_prompts_run, Hl. cbn [fst]. f_equal.
  rewrite extract_prompts_filter.
  assert (Hnone : List.filter is_content
                    (map PyStr.strip (PyStr.split newline response)) = []).
  { induction Hlines as [|line lines Hline _ IH]; [reflexivity|].
    cbn [map List.filter]. rewrite IH. rewrite <- keep_is_content.
    destruct Hline as [-> | ->]; [reflexivity|].
    now rewrite andb_false_r. }
  rewrite Hnone. apply slice_to_nil.
Qed.

Lemma X1_numbered_list_gives_no_prompt_witness :
  fst (_generate_prompts numbered_list_world "ocean" 10 empty_state) = Ok [].
Proof.
  apply (X1_numbered_list_gives_no_prompt numbered_list_world "ocean" 10
           numbered_list_response empty_state); [reflexivity|].
  change (PyStr.split newline numbered_list_response)
    with ["# Image prompts"; "1. A wave at dawn"; "2. A reef from above";
          " 10. A storm "; ""].
  repeat (constructor;
          [first [left; reflexivity | right; reflexivity]|]).
  constructor.
Defined.

(** Trimming *)

Lemma append_assoc (a b c : string) : (a +:+ b) +:+ c = a +:+ (b +:+ c).
Proof.
  induction a as [|x a IH]; [reflexivity|].
  change (String x ((a +:+ b) +:+ c) = String x (a +:+ (b +:+ c))).
  now rewrite IH.
Qed.

Lemma rev_append_spec s acc : PyStr.rev_append s acc = PyStr.rev s +:+ acc.
Proof.
  unfold PyStr.rev. revert acc. induction s as [|c s IH]; intros acc.
  - reflexivity.
  - cbn [PyStr.rev_append]. rewrite (IH (String c acc)), (IH (String c "")).
    now rewrite append_assoc.
Qed.

Lemma rev_cons c s : PyStr.rev (String c s) = PyStr.rev s +:+ String c "".
Proof. unfold PyStr.rev at 1. cbn [PyStr.rev_append]. apply rev_append_spec. Qed.

Lemma rev_snoc s c : PyStr.rev (s +:+ String c "") = String c (PyStr.rev s).
Proof.
  induction s as [|a s IH]; [reflexivity|].
  change (String a s +:+ String c "") with (String a (s +:+ String c "")).
  now rewrite !rev_cons, IH.
Qed.

Lemma rev_involutive s : PyStr.rev (PyStr.rev s) = s.
Proof.
  induction s as [|c s IH]; [reflexivity|].
  now rewrite rev_cons, rev_snoc, IH.
Qed.

Lemma lstrip_head s :
  PyStr.lstrip s = ""
  \/ exists c t, PyStr.lstrip s = String c t /\ PyStr.is_space c = false.
Proof.
  induction s as [|c s IH]; [now left|].
  cbn [PyStr.lstrip]. destruct (PyStr.is_space c) eqn:Hc; [exact IH|].
  right. now exists c, s.
Qed.

Lemma lstrip_nonspace c t :
  PyStr.is_space c = false -> PyStr.lstrip (String c t) = String c t.
Proof. intros H. cbn [PyStr.lstrip]. now rewrite H. Qed.

Lemma lstrip_idem s : PyStr.lstrip (PyStr.lstrip s) = PyStr.lstrip s.
Proof.
  destruct (lstrip_head s) as [-> | (c & t & -> & Hc)]; [reflexivity|].
  now apply lstrip_nonspace.
Qed.

Lemma lstrip_snoc x c :
  PyStr.is_space c = false ->
  PyStr.lstrip (x +:+ String c "") = PyStr.lstrip x +:+ String c "".
Proof.
  intros Hc. induction x as [|a x IH].
  - change ("" +:+ String c "") with (String c "").
    now rewrite (lstrip_nonspace _ _ Hc).
  - change (String a x +:+ String c "") with (String a (x +:+ String c "")).
    cbn [PyStr.lstrip]. destruct (PyStr.is_space a); [exact IH|reflexivity].
Qed.

Lemma rstrip_nonspace c t :
  PyStr.is_space c = false ->
  PyStr.rstrip (String c t) = String c (PyStr.rstrip t).
Proof.
  intros Hc. unfold PyStr.rstrip.
  now rewrite rev_cons, (lstrip_snoc _ _ Hc), rev_snoc.
Qed.

Lemma rstrip_idem t : PyStr.rstrip (PyStr.rstrip t) = PyStr.rstrip t.
Proof. unfold PyStr.rstrip. now rewrite rev_involutive, lstrip_idem. Qed.

Lemma strip_idem s : PyStr.strip (PyStr.strip s) = PyStr.strip s.
Proof.
  unfold PyStr.strip.
  destruct (lstrip_head s) as [-> | (c & t & -> & Hc)]; [reflexivity|].
  rewrite (rstrip_nonspace _ _ Hc), (lstrip_nonspace _ _ Hc),
    (rstrip_nonspace _ _ Hc).
  now rewrite rstrip_idem.
Qed.

Lemma strip_first s c t :
  PyStr.strip s = String c t -> PyStr.is_space c = false.
Proof.
  unfold PyStr.strip.
  destruct (lstrip_head s) as [-> | (c' & t' & -> & Hc)]; [discriminate|].
  rewrite (rstrip_nonspace _ _ Hc). now intros [= <- _].
Qed.

Lemma strip_last s t c :
  PyStr.strip s = t +:+ String c "" -> PyStr.is_space c = false.
Proof.
  unfold PyStr.strip, PyStr.rstrip. intros H.
  apply (f_equal PyStr.rev) in H. rewrite rev_involutive, rev_snoc in H.
  destruct (lstrip_head (PyStr.rev (PyStr.lstrip s)))
    as [H0 | (c' & t' & H1 & Hc)]; rewrite H in *; [discriminate|].
  now injection H1 as -> _.
Qed.

(** X2: every prompt that derivation returns, for any count, is a line of
    the response with its surrounding whitespace removed: trimming it
    again changes nothing, its first and its last character are not
    whitespace, and it is neither empty nor a list-marker line. *)
Theorem X2_prompts_are_trimmed W topic k s prompts :
  fst (_generate_prompts W topic k s) = Ok prompts ->
  Forall (fun p =>
            PyStr.strip p = p
            /\ p <> ""
            /\ PyStr.startswith_any p list_markers = false
            /\ (forall c t, p = String c t -> PyStr.is_space c = false)
            /\ (forall t c, p = t +:+ String c "" -> PyStr.is_space c = false))
         prompts.
Proof.
  rewrite _generate_prompts_run.
  destruct (llm_generate W (user_prompt topic k)) as [response|e];
    [|discriminate].
  cbn [fst]. intros [= <-]. apply slice_to_Forall.
  rewrite extract_prompts_filter. apply Forall_forall. intros p Hp.
  apply list_elem_of_In, filter_In in Hp. destruct Hp as [Hin Hp].
  apply in_map_iff in Hin. destruct Hin as (line & <- & _).
  rewrite <- keep_is_content in Hp. apply andb_prop in Hp.
  destruct Hp as [Hne Hm].
  split; [apply strip_idem|]. split; [|split; [|split]].
  - intros H0. rewrite H0 in Hne. discriminate.
  - now destruct (PyStr.startswith_any (PyStr.strip line) list_markers).
  - intros c t H. eapply strip_first. exact H.
  - intros t c H. eapply strip_last. exact H.
Qed.

Lemma X2_prompts_are_trimmed_witness :
  Forall (fun p =>
            PyStr.strip p = p
            /\ p <> ""
            /\ PyStr.startswith_any p list_markers = false
            /\ (forall c t, p = String c t -> PyStr.is_space c = false)
            /\ (forall t c, p = t +:+ String c "" -> PyStr.is_space c = false))
         ["a wave"; "a reef"; "a wave"].
Proof.
  apply (X2_prompts_are_trimmed fair_world "ocean" 10 empty_state).
  reflexivity.
Defined.

(** ** Construction (lines 15-31) *)

(** X3: a [GROQ_API_KEY] that is set but empty counts as missing:
    construction raises the same [ValueError], before anything else is
    done. *)
Theorem X3_empty_key_is_missing W s :
  environ s !! "GROQ_API_KEY" = Some "" ->
  __init__ W s = (Raise (ValueError "Missing GROQ_API_KEY in .env file."), s).
Proof. intros H. unfold __init__, bind, getenv. cbn. now rewrite H. Qed.

Lemma X3_empty_key_is_missing_witness :
  __init__ fair_world empty_key_state
  = (Raise (ValueError "Missing GROQ_API_KEY in .env file."), empty_key_state).
Proof.
  apply (X3_empty_key_is_missing fair_world empty_key_state).
  reflexivity.
Defined.

(** X4: construction succeeds exactly when [GROQ_API_KEY] is set and not
    empty and the three set-up calls do not raise.  The object then holds
    the two keys as the environment has them and the header
    [Bearer <HF_API_KEY>]; the assignment of line 27 writes back the value
    just read, so the environment, the files and the log are as before. *)
Theorem X4_construction W s :
  (forall self s',
     __init__ W s = (Ok self, s') ->
     environ s' = environ s /\ fs s' = fs s /\ log s' = log s
     /\ environ s !! "GROQ_API_KEY" = Some (groq_api_key self)
     /\ groq_api_key self <> ""
     /\ hf_api_key self = environ s !! "HF_API_KEY"
     /\ headers self
        = [("Authorization",
            "Bearer " +:+ format_optional (environ s !! "HF_API_KEY"))]
     /\ GroqLLM_init W = None /\ GeneratePodcast_init W = None
     /\ download_required_files W = None)
  /\ (forall key,
        environ s !! "GROQ_API_KEY" = Some key -> key <> "" ->
        GroqLLM_init W = None -> GeneratePodcast_init W = None ->
        download_required_files W = None ->
        exists self s', __init__ W s = (Ok self, s')).
Proof.
  split.
  - intros self s'. unfold __init__, bind, getenv, setenv, check. cbn.
    destruct (environ s !! "GROQ_API_KEY") as [[|c key]|] eqn:Hk; cbn;
      try discriminate.
    destruct (GroqLLM_init W); cbn; try discriminate.
    destruct (GeneratePodcast_init W); cbn; try discriminate.
    destruct (download_required_files W); cbn; try discriminate.
    intros [= <- <-]. cbn.
    split; [now apply insert_id|]. repeat split; discriminate.
  - intros key Hk Hne H1 H2 H3.
    unfold __init__, bind, getenv, setenv, check. cbn.
    rewrite Hk, H1, H2, H3. destruct key; [congruence|]. cbn. eauto.
Qed.

Lemma X4_construction_witness :
  exists self s',
    __init__ fair_world both_keys_state = (Ok self, s')
    /\ environ s' = environ both_keys_state
    /\ headers self = [("Authorization", "Bearer hf_token")].
Proof.
  destruct (proj2 (X4_construction fair_world both_keys_state) "gsk")
    as (self & s' & Hrun);
    [reflexivity | discriminate | reflexivity | reflexivity | reflexivity |].
  exists self, s'. split; [exact Hrun|].
  destruct (proj1 (X4_construction fair_world both_keys_state) self s' Hrun)
    as (He & _ & _ & _ & _ & _ & Hh & _).
  split; [exact He|]. rewrite Hh. reflexivity.
Defined.

(** ** Image synthesis (lines 46-73) *)

Lemma posts_app l1 l2 : posts (l1 ++ l2) = (posts l1 ++ posts l2)%list.
Proof. unfold posts. apply omap_app. Qed.

(** Every way a synthesis call can end. *)
Lemma _generate_image_any W self prompt path s :
  let run := _generate_image W self prompt path s in
  environ (snd run) = environ s
  /\ posts (log (snd run))
     = (posts (log s) ++ [(API_URL self, headers self, [("inputs", prompt)])])%list
  /\ removals (log (snd run)) = removals (log s)
  /\ ((exists e, fst run = Raise e
                 /\ Image_save W placeholder path = Some e
                 /\ fs (snd run) = fs s)
      \/ (fst run = Ok path
          /\ exists img, synthesized_image img
                         /\ fs (snd run) = <[path := ImageFile img]> (fs s))).
Proof.
  unfold _generate_image, try_except, query, save, bind, get_log, emit, lift,
    check, get_fs, set_fs, raise, ret; cbn.
  destruct (requests_post W (log s) (API_URL self) (headers self)
              [("inputs", prompt)]) as [response|e0]; cbn.
  2:{ destruct (Image_save W placeholder path) as [e|] eqn:Hs; cbn;
        rewrite ?posts_app, ?removals_app; cbn; rewrite ?app_nil_r;
        repeat split; [left; eauto | right; split; [reflexivity|]].
      exists placeholder. split; [now left|reflexivity]. }
  destruct (Z.eqb_spec (status_code response) 200) as [H200|H200]; cbn.
  2:{ destruct (Image_save W placeholder path) as [e|] eqn:Hs; cbn;
        rewrite ?posts_app, ?removals_app; cbn; rewrite ?app_nil_r;
        repeat split; [left; eauto | right; split; [reflexivity|]].
      exists placeholder. split; [now left|reflexivity]. }
  destruct (negb (PyStr.bytes_startswith (content response) PNG_magic)
            && negb (PyStr.bytes_startswith (content response) JPEG_magic));
    cbn.
  { destruct (Image_save W placeholder path) as [e|] eqn:Hs; cbn;
      rewrite ?posts_app, ?removals_app; cbn; rewrite ?app_nil_r;
      repeat split; [left; eauto | right; split; [reflexivity|]].
    exists placeholder. split; [now left|reflexivity]. }
  destruct (Image_open W (content response)) as [e1|]; cbn.
  { destruct (Image_save W placeholder path) as [e|] eqn:Hs; cbn;
      rewrite ?posts_app, ?removals_app; cbn; rewrite ?app_nil_r;
      repeat split; [left; eauto | right; split; [reflexivity|]].
    exists placeholder. split; [now left|reflexivity]. }
  destruct (Image_save W (Decoded (content response)) path) as [e2|]; cbn.
  { destruct (Image_save W placeholder path) as [e|] eqn:Hs; cbn;
      rewrite ?posts_app, ?removals_app; cbn; rewrite ?app_nil_r;
      repeat split; [left; eauto | right; split; [reflexivity|]].
    exists placeholder. split; [now left|reflexivity]. }
  rewrite ?posts_app, ?removals_app; cbn; rewrite ?app_nil_r.
  repeat split. right. split; [reflexivity|].
  exists (Decoded (content response)). split; [right; eauto|reflexivity].
Qed.

(** X5: a synthesis call sends exactly one request, whatever happens to
    it: to [API_URL], with the headers of the object and the whole prompt
    as the [inputs] field.  Nothing is sent a second time. *)
Theorem X5_one_request_per_image W self prompt path s :
  posts (log (snd (_generate_image W self prompt path s)))
  = (posts (log s) ++ [(API_URL self, headers self, [("inputs", prompt)])])%list.
Proof. apply _generate_image_any. Qed.



Lemma short_payload_rejected (bs : list Byte.byte) :
  (length bs < 3)%nat ->
  PyStr.bytes_startswith bs PNG_magic = false
  /\ PyStr.bytes_startswith bs JPEG_magic = false.
Proof.
  intros H. unfold PNG_magic, JPEG_magic.
  destruct bs as [|b0 [|b1 [|b2 bs]]]; cbn [length] in H; try lia;
    cbn [PyStr.bytes_startswith]; rewrite ?andb_false_r; now split.
Qed.

(** X7: a response with status 200 whose body has fewer than three bytes -
    an empty body included - is not taken for an image: the placeholder is
    saved instead, when it can be. *)
Theorem X7_short_payload_falls_back W self prompt path s response :
  requests_post W (log s) (API_URL self) (headers self) [("inputs", prompt)]
  = Ok response ->
  (length (content response) < 3)%nat ->
  Image_save W placeholder path = None ->
  exists s',
    _generate_image W self prompt path s = (Ok path, s')
    /\ fs s' !! path = Some (ImageFile placeholder).
Proof.
  intros Hpost Hlen Hsave.
  destruct (_generate_image_run W self prompt path s Hsave)
    as (s' & Hrun & Hfail & _).
  exists s'. split; [exact Hrun|].
  destruct Hfail as (_ & Hfs & _).
  { unfold synthesis_fails. rewrite Hpost. right; left.
    now apply short_payload_rejected. }
  rewrite Hfs. apply lookup_insert_eq.
Qed.

Lemma X7_short_payload_falls_back_witness :
  exists s',
    _generate_image truncated_world sample_self "a wave" "output_1.png" empty_state
    = (Ok "output_1.png", s')
    /\ fs s' !! "output_1.png" = Some (ImageFile placeholder).
Proof.
  apply (X7_short_payload_falls_back truncated_world sample_self "a wave"
           "output_1.png" empty_state
           {| status_code := 200; text := ""; content := [Byte.xff; Byte.xd8] |});
    [reflexivity | cbn; lia | reflexivity].
Defined.

(** ** The image loop (lines 84-91) *)

Lemma output_file_numbered i : numbered (output_file i).
Proof. now exists i. Qed.

(** Every way the loop can end. *)
Lemma generate_images_any W self prompts :
  forall i image_files s r s',
    generate_images W self i prompts image_files s = (r, s') ->
    environ s' = environ s
    /\ removals (log s') = removals (log s)
    /\ (forall p, ~ numbered p -> fs s' !! p = fs s !! p)
    /\ match r with
       | Ok files =>
           files = (image_files ++ numbered_paths i (length prompts))%list
           /\ posts (log s')
              = (posts (log s) ++ map (request_for self) prompts)%list
       | Raise e =>
           exists n : nat,
             (n < length prompts)%nat
             /\ Image_save W placeholder (output_file (i + Z.of_nat n)) = Some e
             /\ posts (log s')
                = (posts (log s)
                   ++ map (request_for self) (take (S n) prompts))%list
       end.
Proof.
  induction prompts as [|prompt prompts IH]; intros i image_files s r s' Hrun.
  - cbn in Hrun. injection Hrun as <- <-. cbn. rewrite !app_nil_r. auto.
  - cbn [generate_images] in Hrun. unfold bind in Hrun.
    destruct (_generate_image_any W self prompt (output_file i) s)
      as (He & Hp & Hr & Hcase).
    destruct (_generate_image W self prompt (output_file i) s)
      as [[path|e] s1] eqn:Hcall; cbn [fst snd] in *.
    + destruct Hcase as [(e & Hbad & _) | (Hpath & img & _ & Hfs)];
        [discriminate|]. injection Hpath as ->.
      apply IH in Hrun. destruct Hrun as (He' & Hr' & Hfs' & Hres).
      split; [congruence|]. split; [congruence|]. split.
      { intros p Hn. rewrite (Hfs' p Hn), Hfs. apply lookup_insert_ne.
        intros <-. apply Hn, output_file_numbered. }
      destruct r as [files|e].
      * destruct Hres as [-> Hposts]. split.
        -- cbn [length numbered_paths]. now rewrite <- app_assoc.
        -- rewrite Hposts, Hp. cbn [map]. now rewrite <- app_assoc.
      * destruct Hres as (n & Hn & Hsave & Hposts). exists (S n).
        split; [cbn; lia|]. split.
        -- replace (i + Z.of_nat (S n)) with (i + 1 + Z.of_nat n) by lia.
           exact Hsave.
        -- rewrite Hposts, Hp. cbn [take map]. now rewrite <- app_assoc.
    + injection Hrun as <- <-.
      destruct Hcase as [(e' & Hbad & Hsave & Hfs) | (Hpath & _)];
        [|discriminate]. injection Hbad as <-.
      split; [exact He|]. split; [exact Hr|]. split.
      { intros p _. now rewrite Hfs. }
      exists 0%nat. split; [cbn; lia|]. split.
      * now rewrite Z.add_0_r.
      * rewrite Hp. reflexivity.
Qed.



(** ** Assembly (lines 95-101) *)

Lemma timed_clip_raise D n img s e s' :
  timed_clip D n img s = (Raise e, s') ->
  n <> 0 -> e <> ZeroDivisionError.
Proof.
  unfold timed_clip, ImageClip_read, truediv, bind, emit, get_fs, raise, ret.
  cbn. intros Hrun Hn.
  destruct (fs s !! img) as [[frame|v fps]|]; cbn in Hrun.
  - rewrite (proj2 (Z.eqb_neq n 0) Hn) in Hrun. discriminate.
  - injection Hrun as <- _. discriminate.
  - injection Hrun as <- _. discriminate.
Qed.

Lemma clips_raise D n files :
  n <> 0 ->
  forall s e s',
    comprehension files (timed_clip D n) s = (Raise e, s') ->
    e <> ZeroDivisionError.
Proof.
  intros Hn. induction files as [|img files IH]; intros s e s' Hrun.
  - discriminate.
  - cbn [comprehension] in Hrun. unfold bind at 1 in Hrun.
    destruct (timed_clip D n img s) as [[c|e0] s1] eqn:Hc.
    + unfold bind at 1 in Hrun.
      destruct (comprehension files (timed_clip D n) s1) as [[clips|e1] s2] eqn:Hcs.
      * discriminate.
      * injection Hrun as <- _. eapply IH. exact Hcs.
    + injection Hrun as <- _. eapply timed_clip_raise; eassumption.
Qed.

(** X9: the division of line 96 never raises [ZeroDivisionError]: it is
    evaluated once per image, so only with a divisor of at least one.  If
    neither the audio probe, the concatenation nor the encoder raises that
    exception, assembly does not either, for an empty list of images as
    for any other. *)
Theorem X9_division_is_safe W image_files narration output_path fps s :
  AudioFileClip W narration <> Raise ZeroDivisionError ->
  (forall clips, concatenate_error W clips <> Some ZeroDivisionError) ->
  (forall v, write_videofile_error W v output_path fps <> Some ZeroDivisionError) ->
  fst (assemble W image_files narration output_path fps s)
  <> Raise ZeroDivisionError.
Proof.
  intros Haudio Hconcat Hwrite.
  unfold assemble. unfold bind at 1 2. unfold emit, lift. cbn.
  destruct (AudioFileClip W narration) as [D|e]; cbn; [|congruence].
  unfold bind at 1.
  change (fun img : string => _)
    with (timed_clip D (Z.of_nat (length image_files))).
  match goal with
  | |- context [comprehension image_files ?f ?s0] =>
      destruct (comprehension image_files f s0) as [[clips|e] s1] eqn:Hc
  end.
  - unfold concatenate_videoclips, write_videofile, bind, emit, check, get_fs,
      set_fs, raise, ret. cbn.
    destruct clips as [|c0 clips0]; cbn; [discriminate|].
    destruct (concatenate_error W (c0 :: clips0)) as [e|] eqn:He; cbn.
    { intros [= ->]. now apply (Hconcat (c0 :: clips0)). }
    match goal with
    | |- context [write_videofile_error W ?v output_path fps] =>
        destruct (write_videofile_error W v output_path fps) as [e|] eqn:Hw;
          cbn; [intros [= ->]; now apply (Hwrite v) | discriminate]
    end.
  - cbn. intros [= ->].
    destruct image_files as [|img files]; [discriminate|].
    eapply clips_raise; [|exact Hc|reflexivity]. cbn. lia.
Qed.

Lemma X9_division_is_safe_witness :
  fst (assemble fair_world [] "podcast.mp3" "out.mp4" 24 two_images_state)
  <> Raise ZeroDivisionError
  /\ fst (assemble fair_world ["a.png"; "b.png"] "podcast.mp3" "out.mp4" 24
            two_images_state)
     <> Raise ZeroDivisionError.
Proof.
  split;
    apply (X9_division_is_safe fair_world _ "podcast.mp3" "out.mp4" 24
             two_images_state); discriminate.
Defined.

(** ** Clean-up (lines 103-108) *)

Lemma remove_step W f s :
  exists s1,
    try_except (os_remove W f) (fun _ => ret tt) s = (Ok tt, s1)
    /\ ((fs s1 = fs s /\ (fs s !! f = None \/ os_remove_error W f <> None))
        \/ (fs s1 = delete f (fs s) /\ os_remove_error W f = None)).
Proof.
  unfold try_except, os_remove, bind, emit, get_fs, set_fs, check, raise, ret.
  cbn. destruct (fs s !! f) as [file|] eqn:Hf; cbn.
  - destruct (os_remove_error W f) as [e|] eqn:He; cbn.
    + eexists. split; [reflexivity|]. left. cbn. split; [reflexivity|].
      right. discriminate.
    + eexists. split; [reflexivity|]. right. cbn. now split.
  - eexists. split; [reflexivity|]. left. cbn. split; [reflexivity|now left].
Qed.

(** Clean-up leaves alone the files it is not given and the files the
    system refuses to remove. *)
Lemma cleanup_frame W files :
  forall s p,
    p ∉ files \/ os_remove_error W p <> None ->
    fs (snd (cleanup W files s)) !! p = fs s !! p.
Proof.
  induction files as [|f files IH]; intros s p Hp; [reflexivity|].
  destruct (remove_step W f s) as (s1 & Hstep & Hcase).
  unfold cleanup in *. cbn [for_each]. rewrite (bind_ok _ _ _ _ _ Hstep).
  rewrite IH.
  - destruct Hcase as [[-> _] | [-> Herr]]; [reflexivity|].
    apply lookup_delete_ne. intros <-.
    destruct Hp as [Hp|Hp]; [|contradiction].
    apply Hp, elem_of_cons. now left.
  - destruct Hp as [Hp|Hp]; [|now right]. left. intros Hin.
    apply Hp, elem_of_cons. now right.
Qed.

(** X10: the clean-up loop never raises.  It tries every file it is
    given, in order, also after a removal has failed; a file the system
    lets go is gone afterwards, a file it refuses to remove stays as it
    was, and so does every file that is not in the list. *)
Theorem X10_cleanup_is_best_effort W files s :
  exists s',
    cleanup W files s = (Ok tt, s')
    /\ environ s' = environ s
    /\ log s' = (log s ++ map Remove files)%list
    /\ (forall p, p ∉ files -> fs s' !! p = fs s !! p)
    /\ (forall f, f ∈ files ->
          (os_remove_error W f = None -> fs s' !! f = None)
          /\ (os_remove_error W f <> None -> fs s' !! f = fs s !! f)).
Proof.
  destruct (cleanup_run W files s) as (s' & Hrun & He & Hl & _ & Hrm).
  exists s'. split; [exact Hrun|]. split; [exact He|]. split; [exact Hl|].
  assert (Hs : s' = snd (cleanup W files s)) by now rewrite Hrun.
  split.
  - intros p Hp. rewrite Hs. apply cleanup_frame. now left.
  - intros f Hf. split; [now apply Hrm|].
    intros Herr. rewrite Hs. apply cleanup_frame. now right.
Qed.

Lemma X10_cleanup_is_best_effort_witness :
  exists s',
    cleanup sticky_world ["a.png"; "missing.png"; "b.png"] two_images_state
    = (Ok tt, s')
    /\ log s' = [Remove "a.png"; Remove "missing.png"; Remove "b.png"]
    /\ fs s' !! "a.png" = Some (ImageFile placeholder)
    /\ fs s' !! "b.png" = None.
Proof.
  destruct (X10_cleanup_is_best_effort sticky_world
              ["a.png"; "missing.png"; "b.png"] two_images_state)
    as (s' & Hrun & _ & Hl & _ & Hfiles).
  exists s'. split; [exact Hrun|]. split; [exact Hl|]. split.
  - rewrite (proj2 (Hfiles "a.png" ltac:(repeat constructor)));
      [reflexivity | discriminate].
  - apply (proj1 (Hfiles "b.png" ltac:(repeat constructor))). reflexivity.
Defined.

(** ** The whole run (lines 75-109) *)

Lemma numbered_paths_numbered i n :
  Forall numbered (numbered_paths i n).
Proof.
  revert i. induction n as [|n IH]; intros i; cbn; constructor;
    [apply output_file_numbered | apply IH].
Qed.

(** Every way steps 1-3 can end. *)
Lemma prepare_any W self topic k s r s1 :
  prepare W self topic k s = (r, s1) ->
  environ s1 = environ s
  /\ removals (log s1) = removals (log s)
  /\ (forall p, ~ numbered p -> fs s1 !! p = fs s !! p)
  /\ match r with
     | Ok x => Forall numbered (snd x)
     | Raise _ => True
     end.
Proof.
  unfold prepare. unfold bind at 1 2. unfold emit, lift. cbn.
  destruct (podcast_generate W topic) as [audio|e]; cbn.
  2:{ intros [= <- <-]. cbn. rewrite removals_app. cbn.
      rewrite app_nil_r. auto. }
  unfold bind at 1. rewrite _generate_prompts_run.
  destruct (llm_generate W (user_prompt topic k)) as [response|e]; cbn.
  2:{ intros [= <- <-]. cbn. rewrite !removals_app. cbn.
      rewrite !app_nil_r. auto. }
  unfold bind.
  match goal with
  | |- context [generate_images W self 1 ?ps [] ?s0] =>
      destruct (generate_images W self 1 ps [] s0) as [[files|e] s2] eqn:Hloop;
        apply generate_images_any in Hloop; cbn in Hloop;
        destruct Hloop as (He & Hr & Hfs & Hres)
  end.
  - intros [= <- <-]. cbn [snd].
    rewrite !removals_app in Hr. cbn in Hr. rewrite !app_nil_r in Hr.
    split; [exact He|]. split; [exact Hr|]. split; [exact Hfs|].
    destruct Hres as [-> _]. apply numbered_paths_numbered.
  - intros [= <- <-].
    rewrite !removals_app in Hr. cbn in Hr. rewrite !app_nil_r in Hr. auto.
Qed.

Lemma writes_app l1 l2 : writes (l1 ++ l2) = (writes l1 ++ writes l2)%list.
Proof. unfold writes. apply omap_app. Qed.

Lemma writes_map_Remove files : writes (map Remove files) = [].
Proof.
  unfold writes. induction files as [|f files IH]; cbn; [reflexivity|exact IH].
Qed.

(** The program's own writes, step by step. *)
Lemma _generate_image_writes W self prompt path s :
  exists written,
    writes (log (snd (_generate_image W self prompt path s)))
    = (writes (log s) ++ written)%list
    /\ Forall (fun p => p = path) written.
Proof.
  unfold _generate_image, try_except, query, save, bind, get_log, emit, lift,
    check, get_fs, set_fs, raise, ret; cbn.
  destruct (requests_post W (log s) (API_URL self) (headers self)
              [("inputs", prompt)]) as [response|e0]; cbn.
  2:{ destruct (Image_save W placeholder path); cbn;
        rewrite ?writes_app; cbn; rewrite ?app_nil_r;
        eexists; (split; [reflexivity|repeat constructor]). }
  destruct (Z.eqb_spec (status_code response) 200) as [H200|H200]; cbn.
  2:{ destruct (Image_save W placeholder path); cbn;
        rewrite ?writes_app; cbn; rewrite ?app_nil_r;
        eexists; (split; [reflexivity|repeat constructor]). }
  destruct (negb (PyStr.bytes_startswith (content response) PNG_magic)
            && negb (PyStr.bytes_startswith (content response) JPEG_magic));
    cbn.
  { destruct (Image_save W placeholder path); cbn;
      rewrite ?writes_app; cbn; rewrite ?app_nil_r;
      eexists; (split; [reflexivity|repeat constructor]). }
  destruct (Image_open W (content response)) as [e1|]; cbn.
  { destruct (Image_save W placeholder path); cbn;
      rewrite ?writes_app; cbn; rewrite ?app_nil_r;
      eexists; (split; [reflexivity|repeat constructor]). }
  destruct (Image_save W (Decoded (content response)) path) as [e2|]; cbn.
  { destruct (Image_save W placeholder path); cbn;
      rewrite ?writes_app; cbn; rewrite ?app_nil_r, <- ?app_assoc;
      eexists; (split; [reflexivity|repeat constructor]). }
  rewrite ?writes_app; cbn; rewrite ?app_nil_r.
  eexists; (split; [reflexivity|repeat constructor]).
Qed.

Lemma generate_images_writes W self prompts :
  forall i image_files s,
    exists written,
      writes (log (snd (generate_images W self i prompts image_files s)))
      = (writes (log s) ++ written)%list
      /\ Forall numbered written.
Proof.
  induction prompts as [|prompt prompts IH]; intros i image_files s.
  - exists []. cbn. now rewrite app_nil_r.
  - cbn [generate_images]. unfold bind.
    destruct (_generate_image_writes W self prompt (output_file i) s)
      as (w1 & Hw1 & Hall1).
    destruct (_generate_image W self prompt (output_file i) s)
      as [[path|e] s1]; cbn [snd] in *.
    + destruct (IH (i + 1) (image_files ++ [path])%list s1) as (w2 & Hw2 & Hall2).
      exists (w1 ++ w2)%list. rewrite Hw2, Hw1, app_assoc. split; [reflexivity|].
      apply Forall_app. split; [|exact Hall2].
      eapply Forall_impl; [exact Hall1|]. intros p ->.
      apply output_file_numbered.
    + exists w1. split; [exact Hw1|].
      eapply Forall_impl; [exact Hall1|]. intros p ->.
      apply output_file_numbered.
Qed.

Lemma clips_writes D n files :
  forall s,
    writes (log (snd (comprehension files (timed_clip D n) s))) = writes (log s).
Proof.
  induction files as [|img files IH]; intros s; [reflexivity|].
  cbn [comprehension]. unfold bind at 1.
  assert (Hstep : writes (log (snd (timed_clip D n img s))) = writes (log s)).
  { unfold timed_clip, ImageClip_read, truediv, bind, emit, get_fs, raise, ret.
    cbn. destruct (fs s !! img) as [[frame|v fps]|]; cbn;
      [destruct (n =? 0); cbn| |]; rewrite writes_app; cbn;
      now rewrite app_nil_r. }
  destruct (timed_clip D n img s) as [[c|e] s1]; cbn [snd] in *;
    [|exact Hstep].
  unfold bind at 1. specialize (IH s1).
  destruct (comprehension files (timed_clip D n) s1) as [[clips|e] s2];
    unfold bind, ret; cbn [snd] in *; congruence.
Qed.

Lemma assemble_writes W files narration output_path fps s :
  exists written,
    writes (log (snd (assemble W files narration output_path fps s)))
    = (writes (log s) ++ written)%list
    /\ Forall (eq output_path) written.
Proof.
  unfold assemble. unfold bind at 1 2. unfold emit, lift. cbn.
  destruct (AudioFileClip W narration) as [D|e]; cbn.
  2:{ exists []. rewrite writes_app. cbn. now rewrite !app_nil_r. }
  unfold bind at 1.
  change (fun img : string => _) with (timed_clip D (Z.of_nat (length files))).
  match goal with
  | |- context [comprehension files ?f ?s0] =>
      pose proof (clips_writes D (Z.of_nat (length files)) files s0) as Hc;
        destruct (comprehension files f s0) as [[clips|e] s1]
  end; cbn [snd log] in Hc; rewrite writes_app in Hc;
    change (writes [Probe narration]) with (@nil string) in Hc;
    rewrite app_nil_r in Hc.
  2:{ exists []. cbn. now rewrite app_nil_r. }
  unfold concatenate_videoclips, write_videofile, bind, emit, check, get_fs,
    set_fs, raise, ret. cbn.
  destruct clips as [|c0 clips0]; cbn.
  { exists []. rewrite writes_app. cbn. now rewrite !app_nil_r. }
  destruct (concatenate_error W (c0 :: clips0)) as [e|]; cbn.
  { exists []. rewrite writes_app. cbn. now rewrite !app_nil_r. }
  match goal with
  | |- context [write_videofile_error W ?v output_path fps] =>
      destruct (write_videofile_error W v output_path fps) as [e|]; cbn
  end;
    exists [output_path]; rewrite !writes_app; cbn; rewrite ?app_nil_r, Hc;
    (split; [reflexivity|repeat constructor]).
Qed.

(** X11: through its own file operations a run of [generate], however it
    ends, writes only to paths of the form [output_<i>.png] (with
    [Image.save]) and to the output path (with [write_videofile]), and
    the only files it removes are of the former kind.  What the services
    write on their own account, such as the audio file of the narration,
    is no part of this. *)
Theorem X11_run_touches_only_its_files W self topic output_path fps k s r s' :
  generate W self topic output_path fps k s = (r, s') ->
  (exists written,
     writes (log s') = (writes (log s) ++ written)%list
     /\ Forall (fun p => numbered p \/ p = output_path) written)
  /\ exists removed,
       removals (log s') = (removals (log s) ++ removed)%list
       /\ Forall numbered removed.
Proof.
  intros Hrun. split.
  - assert (Hs' : s' = snd (generate W self topic output_path fps k s))
      by now rewrite Hrun.
    clear Hrun. subst s'.
    unfold generate. unfold bind at 1 2. unfold emit, lift. cbn.
    destruct (podcast_generate W topic) as [audio|e]; cbn.
    2:{ exists []. rewrite writes_app. cbn. now rewrite !app_nil_r. }
    unfold bind at 1. rewrite _generate_prompts_run.
    destruct (llm_generate W (user_prompt topic k)) as [response|e]; cbn.
    2:{ exists []. rewrite !writes_app. cbn. now rewrite !app_nil_r. }
    unfold bind at 1.
    match goal with
    | |- context [generate_images W self 1 ?ps [] ?s0] =>
        destruct (generate_images_writes W self ps 1 [] s0) as (w1 & Hw1 & Hall1);
          destruct (generate_images W self 1 ps [] s0) as [[files|e] s1]
    end; cbn [snd log] in Hw1; rewrite !writes_app in Hw1; cbn in Hw1;
      rewrite !app_nil_r in Hw1.
    2:{ exists w1. split; [exact Hw1|].
        eapply Forall_impl; [exact Hall1|]. now left. }
    unfold bind at 1.
    destruct (assemble_writes W files audio output_path fps s1)
      as (w2 & Hw2 & Hall2).
    destruct (assemble W files audio output_path fps s1) as [[[]|e] s2];
      cbn [snd] in Hw2.
    2:{ cbn [snd]. exists (w1 ++ w2)%list. rewrite Hw2, Hw1, app_assoc.
        split; [reflexivity|]. apply Forall_app. split.
        - eapply Forall_impl; [exact Hall1|]. now left.
        - eapply Forall_impl; [exact Hall2|]. intros p <-. now right. }
    destruct (cleanup_run W files s2) as (s3 & Hclean & _ & Hl3 & _).
    rewrite (bind_ok _ _ _ _ _ Hclean). unfold ret. cbn [snd].
    exists (w1 ++ w2)%list.
    rewrite Hl3, writes_app, writes_map_Remove, app_nil_r, Hw2, Hw1, app_assoc.
    split; [reflexivity|]. apply Forall_app. split.
    + eapply Forall_impl; [exact Hall1|]. now left.
    + eapply Forall_impl; [exact Hall2|]. intros p <-. now right.
  - revert Hrun. rewrite generate_split. unfold bind at 1.
    destruct (prepare W self topic k s) as [[[audio files]|e] s1] eqn:Hprep;
      apply prepare_any in Hprep; destruct Hprep as (He1 & Hr1 & Hf1 & Hnum).
    2:{ intros [= <- <-]. exists []. rewrite app_nil_r.
        split; [exact Hr1|constructor]. }
    cbn [fst snd] in *. unfold bind at 1.
    destruct (assemble W files audio output_path fps s1) as [[[]|e] s2] eqn:Hasm;
      apply assemble_run in Hasm; destruct Hasm as (He2 & Hr2 & Hf2).
    2:{ intros [= <- <-]. exists []. rewrite app_nil_r.
        split; [congruence|constructor]. }
    destruct (cleanup_run W files s2) as (s3 & Hclean & He3 & Hl3 & _ & _).
    rewrite (bind_ok _ _ _ _ _ Hclean). intros [= <- <-].
    exists files. split; [|exact Hnum].
    rewrite Hl3, removals_app, removals_map_Remove. congruence.
Qed.

Lemma X11_run_touches_only_its_files_witness :
  let run := generate fair_world sample_self "ocean" "final_video.mp4" 24 3
               two_images_state in
  (exists written,
     writes (log (snd run)) = (writes (log two_images_state) ++ written)%list
     /\ Forall (fun p => numbered p \/ p = "final_video.mp4") written)
  /\ exists removed,
       removals (log (snd run))
       = (removals (log two_images_state) ++ removed)%list
       /\ Forall numbered removed.
Proof.
  intros run.
  apply (X11_run_touches_only_its_files fair_world sample_self "ocean"
           "final_video.mp4" 24 3 two_images_state (fst run) (snd run)).
  unfold run. now destruct (generate _ _ _ _ _ _ _).
Defined.

Lemma chain_from_length t clips : length (chain_from t clips) = length clips.
Proof. now rewrite <- (chain_from_clips t clips) at 2; rewrite length_map. Qed.

(** X12: when the narration and the language model answer, at least one
    prompt is derived, the placeholder can be saved at the numbered
    paths, the audio can be probed and neither the concatenation, the
    encoder nor the removals fail, [generate] returns the output path:
    the video is there, with one segment per prompt, each lasting the
    audio's duration divided by the number of prompts, and the numbered
    image files are gone - provided the output path is not itself of the
    form [output_<i>.png]. *)
Theorem X12_run_succeeds W self topic output_path fps k s narration response D :
  podcast_generate W topic = Ok narration ->
  llm_generate W (user_prompt topic k) = Ok response ->
  let prompts := PyStr.slice_to (extract_prompts response) k in
  prompts <> [] ->
  (forall j, (j < length prompts)%nat ->
             Image_save W placeholder (output_file (1 + Z.of_nat j)) = None) ->
  AudioFileClip W narration = Ok D ->
  (forall clips, concatenate_error W clips = None) ->
  (forall v, write_videofile_error W v output_path fps = None) ->
  (forall f, os_remove_error W f = None) ->
  ~ numbered output_path ->
  exists s' v,
    generate W self topic output_path fps k s = (Ok output_path, s')
    /\ fs s' !! output_path = Some (VideoFile v fps)
    /\ length (segments v) = length prompts
    /\ Forall (fun seg =>
                 clip_duration (snd seg)
                 = (D / float_of_int (Z.of_nat (length prompts)))%float)
              (segments v)
    /\ forall j, (j < length prompts)%nat ->
                 fs s' !! output_file (1 + Z.of_nat j) = None.
Proof.
  intros Hn Hl prompts Hne Hsave HD Hconcat Hwrite Hremove Hout.
  destruct (prepare_run W self topic k s narration response Hn Hl Hsave)
    as (s1 & Hprep & _ & Hfiles).
  fold prompts in Hprep, Hfiles.
  set (files := numbered_paths 1 (length prompts)) in *.
  assert (Hfne : files <> []).
  { unfold files. destruct prompts; [contradiction|discriminate]. }
  destruct (assemble_succeeds W files narration output_path fps s1 D)
    as (s2 & Hasm); [exact Hfne | exact HD | | exact Hconcat | exact Hwrite |].
  { intros f Hf. apply numbered_paths_elem in Hf.
    destruct Hf as (j & Hj & ->). destruct (Hfiles j Hj) as (img & Himg & _).
    eauto. }
  pose proof Hasm as Hrun. apply assemble_run in Hrun.
  destruct Hrun as (_ & _ & D' & clips & HD' & Hmap & Hall & Hfs2).
  assert (D' = D) by congruence. subst D'.
  destruct (cleanup_run W files s2) as (s3 & Hclean & _ & _ & _ & Hrm).
  exists s3. eexists.
  split; [|split; [|split; [|split]]].
  - rewrite generate_split, (bind_ok _ _ _ _ _ Hprep). cbn [fst snd].
    rewrite (bind_ok _ _ _ _ _ Hasm), (bind_ok _ _ _ _ _ Hclean). reflexivity.
  - assert (Hs : s3 = snd (cleanup W files s2)) by now rewrite Hclean.
    rewrite Hs, cleanup_frame.
    + rewrite Hfs2. apply lookup_insert_eq.
    + left. intros Hin. apply Hout.
      pose proof (numbered_paths_numbered 1 (length prompts)) as Hnum.
      rewrite Forall_forall in Hnum. now apply Hnum.
  - cbn [set_audio chain segments]. rewrite chain_from_length.
    rewrite <- (length_map clip_path), Hmap. apply numbered_paths_length.
  - cbn [set_audio chain segments]. apply Forall_forall. intros [t c] Hseg.
    assert (Hc : c ∈ clips).
    { rewrite <- (chain_from_clips 0%float clips).
      apply list_elem_of_fmap. now exists (t, c). }
    rewrite Forall_forall in Hall. destruct (Hall c Hc) as (_ & Hd & _).
    cbn [snd]. rewrite Hd. unfold files. now rewrite numbered_paths_length.
  - intros j Hj. apply Hrm; [|apply Hremove].
    eapply list_elem_of_lookup_2. now apply numbered_paths_lookup.
Qed.

Lemma X12_run_succeeds_witness :
  exists s' v,
    generate flaky_world sample_self "ocean" "final_video.mp4" 24 3 empty_state
    = (Ok "final_video.mp4", s')
    /\ fs s' !! "final_video.mp4" = Some (VideoFile v 24)
    /\ length (segments v) = 3%nat
    /\ Forall (fun seg =>
                 clip_duration (snd seg)
                 = (12 / float_of_int (Z.of_nat 3))%float)
              (segments v)
    /\ forall j, (j < 3)%nat -> fs s' !! output_file (1 + Z.of_nat j) = None.
Proof.
  apply (X12_run_succeeds flaky_world sample_self "ocean" "final_video.mp4"
           24 3 empty_state "podcast.mp3" sample_response 12%float);
    try reflexivity.
  - discriminate.
  - intros (i & Hi). apply (f_equal (fun p => String.get 0 p)) in Hi.
    discriminate.
Defined.

Lemma prepare_ok W self topic k s narration files s1 :
  prepare W self topic k s = (Ok (narration, files), s1) ->
  podcast_generate W topic = Ok narration
  /\ exists response,
       llm_generate W (user_prompt topic k) = Ok response
       /\ files = numbered_paths 1
                    (length (PyStr.slice_to (extract_prompts response) k)).
Proof.
  unfold prepare. unfold bind at 1 2. unfold emit, lift. cbn.
  destruct (podcast_generate W topic) as [audio|e]; cbn; [|discriminate].
  unfold bind at 1. rewrite _generate_prompts_run.
  destruct (llm_generate W (user_prompt topic k)) as [response|e]; cbn;
    [|discriminate].
  unfold bind.
  match goal with
  | |- context [generate_images W self 1 ?ps [] ?s0] =>
      destruct (generate_images W self 1 ps [] s0) as [[fs'|e] s2] eqn:Hloop;
        [|discriminate]
  end.
  apply generate_images_any in Hloop. destruct Hloop as (_ & _ & _ & -> & _).
  intros [= <- <- <-]. split; [reflexivity|]. now exists response.
Qed.

(** X13: whenever [generate] returns, it returns the output path it was
    given; the narration, the language model and the audio probe have
    answered; and, unless the output path is itself of the form
    [output_<i>.png], the video is at that path with the frame rate asked
    for, one segment per derived prompt, in the order of the numbered
    files, and the narration as its audio track from time 0. *)
Theorem X13_what_a_returned_run_has_done W self topic output_path fps k s p s' :
  generate W self topic output_path fps k s = (Ok p, s') ->
  p = output_path
  /\ exists narration response D v,
       podcast_generate W topic = Ok narration
       /\ llm_generate W (user_prompt topic k) = Ok response
       /\ AudioFileClip W narration = Ok D
       /\ map (fun seg => clip_path (snd seg)) (segments v)
          = numbered_paths 1
              (length (PyStr.slice_to (extract_prompts response) k))
       /\ audio v = Some (0%float, {| audio_path := narration; audio_duration := D |})
       /\ (~ numbered output_path ->
           fs s' !! output_path = Some (VideoFile v fps)).
Proof.
  rewrite generate_split. unfold bind at 1.
  destruct (prepare W self topic k s) as [[[narration files]|e] s1] eqn:Hprep;
    [|discriminate].
  apply prepare_ok in Hprep. destruct Hprep as (Hn & response & Hl & Hfiles).
  cbn [fst snd]. unfold bind at 1.
  destruct (assemble W files narration output_path fps s1) as [[[]|e] s2] eqn:Hasm;
    [|discriminate].
  apply assemble_run in Hasm.
  destruct Hasm as (_ & _ & D & clips & HD & Hmap & _ & Hfs2).
  destruct (cleanup_run W files s2) as (s3 & Hclean & _).
  rewrite (bind_ok _ _ _ _ _ Hclean). intros [= <- <-].
  split; [reflexivity|].
  exists narration, response, D,
    (set_audio (chain clips) {| audio_path := narration; audio_duration := D |}).
  split; [exact Hn|]. split; [exact Hl|]. split; [exact HD|]. split; [|split].
  - cbn [set_audio chain segments].
    rewrite <- (List.map_map snd clip_path), chain_from_clips. congruence.
  - reflexivity.
  - intros Hout.
    assert (Hs : s3 = snd (cleanup W files s2)) by now rewrite Hclean.
    rewrite Hs, cleanup_frame.
    + rewrite Hfs2. apply lookup_insert_eq.
    + left. intros Hin. apply Hout. subst files.
      pose proof (numbered_paths_numbered 1
                    (length (PyStr.slice_to (extract_prompts response) k)))
        as Hnum.
      rewrite Forall_forall in Hnum. now apply Hnum.
Qed.

Lemma X13_what_a_returned_run_has_done_witness :
  let run := generate flaky_world sample_self "ocean" "final_video.mp4" 24 3
               empty_state in
  "final_video.mp4" = "final_video.mp4"
  /\ exists narration response D v,
       podcast_generate flaky_world "ocean" = Ok narration
       /\ llm_generate flaky_world (user_prompt "ocean" 3) = Ok response
       /\ AudioFileClip flaky_world narration = Ok D
       /\ map (fun seg => clip_path (snd seg)) (segments v)
          = numbered_paths 1
              (length (PyStr.slice_to (extract_prompts response) 3))
       /\ audio v = Some (0%float, {| audio_path := narration; audio_duration := D |})
       /\ (~ numbered "final_video.mp4" ->
           fs (snd run) !! "final_video.mp4" = Some (VideoFile v 24)).
Proof.
  intros run.
  apply (X13_what_a_returned_run_has_done flaky_world sample_self "ocean"
           "final_video.mp4" 24 3 empty_state "final_video.mp4" (snd run)).
  vm_compute. reflexivity.
Defined.
